(** * Forecasting jobs and belief queries of the BVP platform

    A shallow embedding of
    - [bvp/data/models/forecasting/utils.py] (data availability, query window),
    - [bvp/data/queries/utils.py] (belief-query filters),
    - [bvp/data/services/forecasting.py] (forecasting jobs and their execution),
    followed by the properties the specification states about them.

    Conventions.
    - A [datetime] is an instant, a [timedelta] a duration; both are integers
      counting microseconds (the resolution of Python's [datetime] module), so
      that [+], [-] and the comparisons are those of Python on the instants.
      Datetimes are taken timezone-aware and within the years that Python
      represents, where this arithmetic neither raises nor overflows.
    - A call that can raise returns an [outcome]: the value, or the exception.
    - A database table is the list of its rows, or a [gmap] from the primary
      key where rows are reached through a foreign key. *)

From Stdlib Require Import ZArith Lia.
From stdpp Require Import base option list strings pretty gmap.

Local Open Scope Z_scope.

(** ** Time *)

Definition datetime := Z.
Definition timedelta := Z.

Definition minutes (n : Z) : timedelta := n * 60000000.
Definition hours (n : Z) : timedelta := n * 3600000000.

(** ** Exceptions and outcomes *)

(** The three messages of [NotEnoughDataException]; the text of the source's
    f-strings is replaced by the date it suggests. *)
Inductive not_enough_data :=
  | NoDataAtAll
  | DataStartsTooLate (suggested_start : datetime)
  | DataEndsTooEarly (suggested_end : datetime).

Inductive exn :=
  | NotEnoughDataException (why : not_enough_data)
  | InvalidHorizonException (job_id : string) (horizon : timedelta)
  | Exception (message : string)
  | IntegrityError
  | AttributeError
  | TypeError
  | MultipleResultsFound
  | OtherError (code : Z).

Inductive outcome (A : Type) :=
  | Returns (a : A)
  | Raises (e : exn).
Arguments Returns {A} a.
Arguments Raises {A} e.

#[export] Instance outcome_ret : MRet outcome := fun A a => Returns a.
#[export] Instance outcome_bind : MBind outcome := fun A B k o =>
  match o with
  | Returns a => k a
  | Raises e => Raises e
  end.

Definition returns {A} (o : outcome A) : Prop := exists a, o = Returns a.

(** ** bvp/data/models/forecasting/utils.py *)

Module ForecastingUtils.

(** A row of a timed-value table (Power, Price or Weather) as far as this
    module reads it: the time of the event and the asset it belongs to. *)
Record timed_value := {
  tv_datetime : datetime;
  tv_owner_id : Z;
}.

Record generic_asset := {
  ga_name : string;
}.

(** [order_by(datetime.asc()).first()]: a row with the least datetime. *)
Fixpoint first_asc (rows : list timed_value) : option timed_value :=
  match rows with
  | [] => None
  | r :: rs =>
      match first_asc rs with
      | None => Some r
      | Some m => if tv_datetime r <=? tv_datetime m then Some r else Some m
      end
  end.

(** [order_by(datetime.desc()).first()]: a row with the greatest datetime. *)
Fixpoint first_desc (rows : list timed_value) : option timed_value :=
  match rows with
  | [] => None
  | r :: rs =>
      match first_desc rs with
      | None => Some r
      | Some m => if tv_datetime m <=? tv_datetime r then Some r else Some m
      end
  end.

(** Python's [max] on a non-empty list. *)
Definition py_max (x : Z) (xs : list Z) : Z := fold_left Z.max xs x.

Definition get_query_window (training_start end_ : datetime) (lags : list timedelta)
  : datetime * datetime :=
  let query_start :=
    match lags with
    | [] => training_start
    | l :: ls => training_start - py_max l ls
    end in
  let query_end := end_ in
  (query_start, query_end).

Section CheckDataAvailability.

(** [as_bvp_time] (bvp.utils.time_utils) presents a datetime in the
    platform's timezone. *)
Variable as_bvp_time : datetime -> datetime.

(** The table of the asset's class, by primary key, and the table of its
    values. *)
Variable assets : gmap Z generic_asset.
Variable values : list timed_value.

(** [value_class.query.join(asset_class).filter(asset_class.name == name)] *)
Definition values_of (name : string) : list timed_value :=
  List.filter
    (fun r => match assets !! tv_owner_id r with
              | Some a => bool_decide (ga_name a = name)
              | None => false
              end)
    values.

Definition check_data_availability
    (asset : generic_asset) (forecast_start forecast_end : datetime)
    (query_window : datetime * datetime) (horizon : timedelta) : outcome unit :=
  let q := values_of (ga_name asset) in
  let first_value := first_asc q in
  let last_value := first_desc q in
  match first_value with
  | None => Raises (NotEnoughDataException NoDataAtAll)
  | Some first_value =>
      let first := as_bvp_time (tv_datetime first_value) in
      match last_value with
      | None => Raises AttributeError
      | Some last_value =>
          let last := as_bvp_time (tv_datetime last_value) in
          if query_window.1 <? first then
            let suggested_start := forecast_start + (first - query_window.1) in
            Raises (NotEnoughDataException (DataStartsTooLate suggested_start))
          else if last + minutes 15 <? query_window.2 - horizon then
            let suggested_end := forecast_end + (last - (query_window.2 - horizon)) in
            Raises (NotEnoughDataException (DataEndsTooEarly suggested_end))
          else Returns tt
      end
  end.

End CheckDataAvailability.

End ForecastingUtils.

(** ** bvp/data/queries/utils.py *)

Module Queries.

Section Beliefs.

(** The type of the stored measurements (floats); no filter reads them. *)
Context {V : Type}.

(** A row of a beliefs query: the columns of the timed-value class [cls]
    joined with its asset class (for [event_resolution]). *)
Record belief := {
  b_datetime : datetime;
  b_value : V;
  b_horizon : timedelta;
  b_data_source_id : Z;
  b_event_resolution : timedelta;
}.

Record data_source := {
  ds_label : string;
  ds_type : string;
}.

(** *** Column expressions

    [cls.datetime], [cls.horizon] and the like are SQL expressions over the
    current row. SQL is three-valued: an operation on NULL is NULL, a
    comparison with NULL is unknown, and WHERE keeps the rows on which the
    criterion is true. *)
Definition sql_expr := belief -> option Z.
Definition sql_pred := belief -> option bool.

Definition col_datetime : sql_expr := fun r => Some (b_datetime r).
Definition col_horizon : sql_expr := fun r => Some (b_horizon r).
Definition col_data_source_id : sql_expr := fun r => Some (b_data_source_id r).
Definition col_event_resolution : sql_expr := fun r => Some (b_event_resolution r).

(** A Python value bound as a parameter of the statement; [None] is NULL. *)
Definition bindparam (v : option Z) : sql_expr := fun _ => v.

Definition sql_add (a b : sql_expr) : sql_expr :=
  fun r => x ← a r; y ← b r; Some (x + y).
Definition sql_sub (a b : sql_expr) : sql_expr :=
  fun r => x ← a r; y ← b r; Some (x - y).
Definition sql_eq (a b : sql_expr) : sql_pred :=
  fun r => x ← a r; y ← b r; Some (x =? y).
Definition sql_le (a b : sql_expr) : sql_pred :=
  fun r => x ← a r; y ← b r; Some (x <=? y).
Definition sql_ge (a b : sql_expr) : sql_pred :=
  fun r => x ← a r; y ← b r; Some (y <=? x).
Definition sql_notin (a : sql_expr) (l : list Z) : sql_pred :=
  fun r => x ← a r; Some (negb (bool_decide (x ∈ l))).

(** A query is modelled by the rows it yields, in their order. *)
Definition Query := list belief.

Definition is_true (t : option bool) : bool :=
  match t with
  | Some b => b
  | None => false
  end.

(** [query.filter(criterion)] *)
Definition query_filter (query : Query) (criterion : sql_pred) : Query :=
  List.filter (fun r => is_true (criterion r)) query.

(** *** Python operands

    The operands of [-] in the filters are Python values ([end], a horizon
    bound) or column expressions. Between plain values the operator is that
    of the [datetime] module, and [None] has none: [TypeError]. A column
    expression of the ORM implements [__sub__] and the reflected [__rsub__]:
    with a column expression on either side, Python ends up in one of the
    two, which builds the SQL expression of the difference with the other
    operand bound as a parameter, [None] being bound as NULL. *)
Inductive operand :=
  | PyNone
  | PyDatetime (t : datetime)
  | PyTimedelta (d : timedelta)
  | PyColumn (e : sql_expr).

Definition as_bound (x : operand) : sql_expr :=
  match x with
  | PyNone => bindparam None
  | PyDatetime t => bindparam (Some t)
  | PyTimedelta d => bindparam (Some d)
  | PyColumn e => e
  end.

Definition py_sub (a b : operand) : outcome operand :=
  match a, b with
  | PyColumn x, _ => Returns (PyColumn (sql_sub x (as_bound b)))
  | _, PyColumn y => Returns (PyColumn (sql_sub (as_bound a) y))
  | PyDatetime t, PyDatetime u => Returns (PyTimedelta (t - u))
  | PyDatetime t, PyTimedelta d => Returns (PyDatetime (t - d))
  | PyTimedelta d, PyTimedelta d' => Returns (PyTimedelta (d - d'))
  | _, _ => Raises TypeError
  end.

Definition optional_datetime (t : option datetime) : operand :=
  match t with
  | Some t => PyDatetime t
  | None => PyNone
  end.

(** *** The filters *)

Definition add_user_source_filter
    (sources : gmap Z data_source) (query : Query)
    (user_source_ids : option (Z + list Z)) : Query :=
  let user_source_ids :=
    match user_source_ids with
    | Some (inl i) => Some [i]
    | Some (inr l) => Some l
    | None => None
    end in
  match user_source_ids with
  | Some ((_ :: _) as user_source_ids) =>
      let ignorable_user_sources :=
        List.filter
          (fun s => bool_decide (ds_type s.2 = "user")
                    && negb (bool_decide (s.1 ∈ user_source_ids)))
          (map_to_list sources) in
      let ignorable_user_source_ids := ignorable_user_sources.*1 in
      query_filter query (sql_notin col_data_source_id ignorable_user_source_ids)
  | _ => query
  end.

(** [cls.datetime + asset_class.event_resolution], the end of the event. *)
Definition event_end : sql_expr := sql_add col_datetime col_event_resolution.

(** [bound - (end - (cls.datetime + asset_class.event_resolution))] *)
Definition fixed_belief_horizon (bound : timedelta) (end_ : option datetime)
  : outcome sql_expr :=
  window_to_event ← py_sub (optional_datetime end_) (PyColumn event_end);
  shifted ← py_sub (PyTimedelta bound) window_to_event;
  mret (as_bound shifted).

Definition add_horizon_filter
    (query : Query) (end_ : option datetime)
    (horizon_window : option timedelta * option timedelta)
    (rolling : bool) (belief_time : option datetime) : outcome Query :=
  let query :=
    match belief_time with
    | Some belief_time =>
        query_filter query
          (sql_le (sql_sub event_end col_horizon) (bindparam (Some belief_time)))
    | None => query
    end in
  let '(short_horizon, long_horizon) := horizon_window in
  let unique_horizon :=
    match short_horizon, long_horizon with
    | Some short, Some long => if short =? long then Some short else None
    | _, _ => None
    end in
  match unique_horizon with
  | Some short =>
      if rolling then
        Returns (query_filter query (sql_eq col_horizon (bindparam (Some short))))
      else
        h ← fixed_belief_horizon short end_;
        Returns (query_filter query (sql_eq col_horizon h))
  | None =>
      query ←
        match short_horizon with
        | Some short =>
            if rolling then
              Returns (query_filter query (sql_ge col_horizon (bindparam (Some short))))
            else
              h ← fixed_belief_horizon short end_;
              Returns (query_filter query (sql_ge col_horizon h))
        | None => Returns query
        end;
      match long_horizon with
      | Some long =>
          if rolling then
            Returns (query_filter query (sql_le col_horizon (bindparam (Some long))))
          else
            h ← fixed_belief_horizon long end_;
            Returns (query_filter query (sql_le col_horizon h))
      | None => Returns query
      end
  end.

End Beliefs.

Arguments belief V : clear implicits.
Arguments Query V : clear implicits.

End Queries.

(** ** bvp/data/services/forecasting.py *)

Module Forecasting.

(** *** Forecasting jobs *)

Section Jobs.

(** The type of [custom_model_params] (a dict handed on to the model). *)
Context {params : Type}.

(** [forecast_horizons_for] (bvp.utils.time_utils): the horizons that go
    with a resolution. *)
Variable forecast_horizons_for : timedelta -> list timedelta.

(** A job of the queue: a call of [make_forecasts] with these keyword
    arguments. *)
Record Job := {
  job_asset_id : Z;
  job_timed_value_type : string;
  job_horizon : timedelta;
  job_start : datetime;
  job_end : datetime;
  job_custom_model_params : option params;
}.

(** The loop over the horizons, on the list [jobs] and the redis queue. *)
Fixpoint create_jobs
    (timed_value_type : string) (asset_id : Z) (start_of_roll end_of_roll : datetime)
    (custom_model_params : option params) (enqueue : bool)
    (horizons : list timedelta) (jobs queue : list Job) : list Job * list Job :=
  match horizons with
  | [] => (jobs, queue)
  | horizon :: horizons =>
      let job := {|
        job_asset_id := asset_id;
        job_timed_value_type := timed_value_type;
        job_horizon := horizon;
        job_start := start_of_roll + horizon;
        job_end := end_of_roll + horizon;
        job_custom_model_params := custom_model_params;
      |} in
      let jobs := jobs ++ [job] in
      let queue := if enqueue then queue ++ [job] else queue in
      create_jobs timed_value_type asset_id start_of_roll end_of_roll
        custom_model_params enqueue horizons jobs queue
  end.

(** Returns the outcome of the call and the redis queue after it. *)
Definition create_forecasting_jobs
    (timed_value_type : string) (asset_id : Z) (start_of_roll end_of_roll : datetime)
    (resolution : option timedelta) (horizons : option (list timedelta))
    (custom_model_params : option params) (enqueue : bool)
    (queue : list Job) : outcome (list Job) * list Job :=
  let horizons :=
    match horizons with
    | None =>
        match resolution with
        | None =>
            Raises (Exception
              "Cannot create forecasting jobs - set either horizons or resolution.")
        | Some resolution => Returns (forecast_horizons_for resolution)
        end
    | Some horizons => Returns horizons
    end in
  match horizons with
  | Raises e => (Raises e, queue)
  | Returns horizons =>
      let '(jobs, queue) :=
        create_jobs timed_value_type asset_id start_of_roll end_of_roll
          custom_model_params enqueue horizons [] queue in
      (Returns jobs, queue)
  end.

End Jobs.

Arguments Job params : clear implicits.

(** *** Running a forecasting job *)

Inductive value_class := Power | Price | Weather.

Section MakeForecasts.

Context {V params ModelSpecs ModelState : Type}.

Record DataSource := {
  ds_id : option Z;
  ds_label : string;
  ds_type : string;
}.

Record GenericAsset := {
  ga_id : Z;
  ga_name : string;
}.

(** A Power, Price or Weather row; [tv_owner_id] is its [asset_id],
    [market_id] or [sensor_id]. *)
Record TimedValue := {
  tv_class : value_class;
  tv_datetime : datetime;
  tv_horizon : timedelta;
  tv_value : V;
  tv_owner_id : Z;
  tv_data_source_id : option Z;
}.

(** What a run does to its surroundings, in the order it does it. *)
Inductive event :=
  | SessionAdd (source : DataSource)
  | Stdout (text : string)
  | LatestGenericModel
  | MakeRollingForecasts
  | SaveToDatabase (rows : list TimedValue) (overwrite : bool)
  | SessionFlush
  | LogWarning (e : exn)
  | SessionRollback.

Definition is_save (ev : event) : bool :=
  match ev with
  | SaveToDatabase _ _ => true
  | _ => false
  end.

Definition is_model (ev : event) : bool :=
  match ev with
  | LatestGenericModel | MakeRollingForecasts => true
  | _ => false
  end.

(** A computation with effects: from the trace so far to an outcome and the
    trace then. *)
Definition M (A : Type) : Type := list event -> outcome A * list event.

#[local] Instance M_ret : MRet M := fun A a tr => (Returns a, tr).
#[local] Instance M_bind : MBind M := fun A B k m tr =>
  match m tr with
  | (Returns a, tr) => k a tr
  | (Raises e, tr) => (Raises e, tr)
  end.

Definition raise {A} (e : exn) : M A := fun tr => (Raises e, tr).
Definition emit (ev : event) : M unit := fun tr => (Returns tt, tr ++ [ev]).
Definition lift {A} (o : outcome A) : M A := fun tr => (o, tr).
(** A call of a collaborator: the call is recorded, then it returns or raises. *)
Definition call {A} (ev : event) (o : outcome A) : M A := fun tr => (o, tr ++ [ev]).

(** [try: body except IntegrityError as e: handler] *)
Definition try_except_IntegrityError {A} (body : M A) (handler : exn -> M A) : M A :=
  fun tr =>
    match body tr with
    | (Raises IntegrityError, tr) => handler IntegrityError tr
    | r => r
    end.

(** [Query.one_or_none()] *)
Definition one_or_none {A} (rows : list A) : outcome (option A) :=
  match rows with
  | [] => Returns None
  | [r] => Returns (Some r)
  | _ => Raises MultipleResultsFound
  end.

(** The surroundings of a run. *)
Variable current_job : option string.              (* get_current_job(), by its id *)
Variable data_source_label : string.
Variable data_sources : list DataSource.
Variable assets markets weather_sensors : list GenericAsset.
Variable hasattr_market_type : GenericAsset -> bool.
Variable supported_horizons : list timedelta.
Variable as_bvp_time : datetime -> datetime.
Variable bvp_now : datetime.
Variable latest_generic_model :
  GenericAsset -> datetime -> datetime -> timedelta -> option timedelta ->
  option params -> outcome (ModelSpecs * string).
Variable set_creation_time : ModelSpecs -> datetime -> ModelSpecs.
Variable make_rolling_forecasts :
  datetime -> datetime -> ModelSpecs -> outcome (list (datetime * V) * ModelState).
Variable save_to_database : list TimedValue -> bool -> outcome unit.
Variable session_flush : outcome unit.
Variable config : gmap string string.              (* current_app.config *)

Definition get_data_source : M DataSource :=
  data_source ← lift (one_or_none
    (List.filter (fun s => bool_decide (ds_label s = data_source_label)) data_sources));
  match data_source with
  | None =>
      let data_source :=
        {| ds_id := None; ds_label := data_source_label; ds_type := "script" |} in
      emit (SessionAdd data_source);;
      mret data_source
  | Some data_source => mret data_source
  end.

Definition value_class_of (timed_value_type : string) : option value_class :=
  if bool_decide (timed_value_type = "Power") then Some Power
  else if bool_decide (timed_value_type = "Price") then Some Price
  else if bool_decide (timed_value_type = "Weather") then Some Weather
  else None.

Definition by_id (asset_id : Z) (table : list GenericAsset) : list GenericAsset :=
  List.filter (fun a => bool_decide (ga_id a = asset_id)) table.

Definition get_asset (asset_id : Z) (timed_value_type : string) : outcome GenericAsset :=
  match value_class_of timed_value_type with
  | None =>
      Raises (Exception
        ("Cannot get asset for asset_type '" +:+ timed_value_type +:+ "'"))
  | Some c =>
      asset ← match c with
              | Power => one_or_none (by_id asset_id assets)
              | Price => one_or_none (by_id asset_id markets)
              | Weather => one_or_none (by_id asset_id weather_sensors)
              end;
      match asset with
      | None =>
          Raises (Exception
            ("Cannot find asset for value type " +:+ timed_value_type
             +:+ " with id " +:+ pretty asset_id))
      | Some asset => Returns asset
      end
  end.

Definition make_timed_value
    (timed_value_type : string) (asset_id : Z) (dt : datetime) (value : V)
    (horizon : timedelta) (data_source_id : option Z) : outcome TimedValue :=
  match value_class_of timed_value_type with
  | None =>
      Raises (Exception
        ("Cannot get asset for asset_type '" +:+ timed_value_type +:+ "'"))
  | Some c =>
      Returns {|
        tv_class := c;
        tv_datetime := dt;
        tv_horizon := horizon;
        tv_value := value;
        tv_owner_id := asset_id;
        tv_data_source_id := data_source_id;
      |}
  end.

(** [rq_job.id] *)
Definition job_id (rq_job : option string) : outcome string :=
  match rq_job with
  | Some id => Returns id
  | None => Raises AttributeError
  end.

(** Lines 56 to 63: the job, the data source and the asset. *)
Definition job_preamble (asset_id : Z) (timed_value_type : string)
  : M (option string * DataSource * GenericAsset) :=
  let rq_job := current_job in
  data_source ← get_data_source;
  asset ← lift (get_asset asset_id timed_value_type);
  _ ← lift (job_id rq_job);
  emit (Stdout "Running Forecasting Job");;
  mret (rq_job, data_source, asset).

(** Lines 70 to 95: the model, the rolling forecasts and their rows. *)
Definition build_forecasts
    (data_source : DataSource) (asset : GenericAsset)
    (asset_id : Z) (timed_value_type : string) (horizon : timedelta)
    (start end_ : datetime) (custom_model_params : option params)
  : M (list TimedValue) :=
  let ex_post_horizon :=
    if hasattr_market_type asset then None else Some (hours 0) in
  '(model_specs, model_identifier) ←
    call LatestGenericModel
      (latest_generic_model asset (as_bvp_time start) (as_bvp_time end_)
         horizon ex_post_horizon custom_model_params);
  let model_specs := set_creation_time model_specs bvp_now in
  '(forecasts, model_state) ←
    call MakeRollingForecasts
      (make_rolling_forecasts (as_bvp_time start) (as_bvp_time end_) model_specs);
  lift (mapM (fun '(dt, value) =>
                make_timed_value timed_value_type asset_id dt value horizon
                  (ds_id data_source))
             forecasts).

(** Lines 97 to 108: saving, and saving again. *)
Definition save_forecasts (ts_value_forecasts : list TimedValue) : M unit :=
  try_except_IntegrityError
    (call (SaveToDatabase ts_value_forecasts false)
       (save_to_database ts_value_forecasts false);;
     call SessionFlush session_flush)
    (fun e =>
       emit (LogWarning e);;
       emit (Stdout "Rolling back due to IntegrityError");;
       emit SessionRollback;;
       if bool_decide (default "" (config !! "BVP_MODE") = "play") then
         emit (Stdout "Saving again, with overwrite=True");;
         call (SaveToDatabase ts_value_forecasts true)
           (save_to_database ts_value_forecasts true)
       else mret tt).

Definition make_forecasts
    (asset_id : Z) (timed_value_type : string) (horizon : timedelta)
    (start end_ : datetime) (custom_model_params : option params) : M unit :=
  '(rq_job, data_source, asset) ← job_preamble asset_id timed_value_type;
  if negb (bool_decide (horizon ∈ supported_horizons)) then
    id ← lift (job_id rq_job);
    raise (InvalidHorizonException id horizon)
  else
    ts_value_forecasts ←
      build_forecasts data_source asset asset_id timed_value_type horizon
        start end_ custom_model_params;
    save_forecasts ts_value_forecasts.

End MakeForecasts.

Arguments TimedValue V : clear implicits.
Arguments event V : clear implicits.
Arguments M V A : clear implicits.

End Forecasting.

(** ** Sample data

    Concrete tables and rows on which the functions above are run. *)

Module Samples.

Definition wind_at (t : datetime) (horizon : timedelta) (source : Z)
  : Queries.belief Z :=
  {| Queries.b_datetime := t; Queries.b_value := 0; Queries.b_horizon := horizon;
     Queries.b_data_source_id := source;
     Queries.b_event_resolution := minutes 15 |}.

Definition two_users_and_a_script : gmap Z Queries.data_source :=
  {[ 1 := {| Queries.ds_label := "alice"; Queries.ds_type := "user" |};
     2 := {| Queries.ds_label := "bob"; Queries.ds_type := "user" |};
     3 := {| Queries.ds_label := "forecaster"; Queries.ds_type := "script" |} ]}.

Definition turbine : Forecasting.GenericAsset :=
  {| Forecasting.ga_id := 1; Forecasting.ga_name := "wind-turbine" |}.

Definition epex : Forecasting.GenericAsset :=
  {| Forecasting.ga_id := 1; Forecasting.ga_name := "epex_da" |}.

Definition seita : Forecasting.DataSource :=
  {| Forecasting.ds_id := None; Forecasting.ds_label := "forecast by Seita (v1)";
     Forecasting.ds_type := "script" |}.

(** The rows of the six-hour forecasts of [run_job] below. *)
Definition power_forecasts : list (Forecasting.TimedValue Z) :=
  [ {| Forecasting.tv_class := Forecasting.Power;
       Forecasting.tv_datetime := hours 10; Forecasting.tv_horizon := hours 6;
       Forecasting.tv_value := 3; Forecasting.tv_owner_id := 1;
       Forecasting.tv_data_source_id := None |};
    {| Forecasting.tv_class := Forecasting.Power;
       Forecasting.tv_datetime := hours 10 + minutes 15;
       Forecasting.tv_horizon := hours 6;
       Forecasting.tv_value := 4; Forecasting.tv_owner_id := 1;
       Forecasting.tv_data_source_id := None |} ].

(** A database that holds the rows already: saving violates uniqueness
    unless it overwrites. *)
Definition rows_exist (rows : list (Forecasting.TimedValue Z)) (overwrite : bool)
  : outcome unit :=
  if overwrite then Returns tt else Raises IntegrityError.

(** Job "job-1" forecasting asset 1 from 10:00 to 10:30, in a database with
    one asset and one market and no data source yet; the model forecasts 3
    and 4 for the two quarters of an hour from the start. *)
Definition run_job
    (save_to_database : list (Forecasting.TimedValue Z) -> bool -> outcome unit)
    (config : gmap string string) (timed_value_type : string) (horizon : timedelta)
  : outcome unit * list (Forecasting.event Z) :=
  Forecasting.make_forecasts (params := unit) (ModelSpecs := unit) (ModelState := unit)
    (Some "job-1") "forecast by Seita (v1)" [] [turbine] [epex] []
    (fun a => bool_decide (Forecasting.ga_name a = "epex_da"))
    [hours 1; hours 6; hours 24; hours 48]
    (fun t => t) (hours 9)
    (fun _ _ _ _ _ _ => Returns (tt, "linear-OLS"))
    (fun specs _ => specs)
    (fun start _ _ => Returns ([(start, 3); (start + minutes 15, 4)], tt))
    save_to_database (Returns tt) config
    1 timed_value_type horizon (hours 10) (hours 10 + minutes 30) None [].

End Samples.

(** ** More of bvp/data/models/forecasting/utils.py *)

Module Lags.

Definition days (n : Z) : timedelta := n * 86400000000.

(** [a // b] on timedeltas: the floor of the quotient, and [None] for
    [ZeroDivisionError]. *)
Definition floordiv (a b : timedelta) : option Z :=
  if b =? 0 then None else Some (a / b).

(** [range(n)] *)
Definition range (n : Z) : list Z := seqZ 0 n.

(** [create_lags]: [daily_seasonality] is the attribute of that name of the
    asset type, [None] when it has none; [None] as result stands for
    [ZeroDivisionError]. The list of a Python set comes in no particular
    order: the one of [elements] stands for it. *)
Definition create_lags
    (n_lags : Z) (daily_seasonality : option bool)
    (horizon resolution : timedelta) : option (list timedelta) :=
  let lags := [] in
  let lags := if horizon <? hours 0 then lags ++ [hours 0] else lags in
  let lag_period := resolution in
  q ← floordiv (horizon - resolution) lag_period;
  let number_of_nan_lags := 1 + q in
  let lags :=
    lags ++ ((fun L => (L + number_of_nan_lags) * lag_period) <$> range n_lags) in
  lags ←
    match daily_seasonality with
    | Some true =>
        let lag_period := days 1 in
        q ← floordiv (horizon - resolution) lag_period;
        let number_of_nan_lags := 1 + q in
        Some (lags
              ++ ((fun L => (L + number_of_nan_lags) * lag_period) <$> range n_lags))
    | _ => Some lags
    end;
  Some (elements (list_to_set lags : gset Z)).

(** The lags of [create_lags] before the set is made of them, with the
    number of lags to skip worked out: [1 + (horizon - resolution) //
    resolution] is [horizon // resolution]. *)
Definition lag_list (n_lags : Z) (daily_seasonality : option bool)
    (horizon resolution : timedelta) : list timedelta :=
  (if horizon <? hours 0 then [hours 0] else [])
  ++ ((fun L => (L + horizon / resolution) * resolution) <$> range n_lags)
  ++ match daily_seasonality with
     | Some true =>
         (fun L => (L + (1 + (horizon - resolution) / days 1)) * days 1)
           <$> range n_lags
     | _ => []
     end.

End Lags.

(** ** More of bvp/data/queries/utils.py *)

Module BeliefQueries.
Import Queries.

Section Tables.

Context {V : Type}.

(** A row of the timed-value class [cls] (Power, Price or Weather);
    [tv_asset_id] is its foreign key to the asset class. *)
Record timed_value := {
  tv_datetime : datetime;
  tv_value : V;
  tv_horizon : timedelta;
  tv_asset_id : Z;
  tv_data_source_id : Z;
}.

(** A row of the asset class (Asset, Market or WeatherSensor). *)
Record asset := {
  a_name : string;
  a_event_resolution : timedelta;
}.

Definition sql_gt (a b : @sql_expr V) : @sql_pred V :=
  fun r => x ← a r; y ← b r; Some (y <? x).
Definition sql_lt (a b : @sql_expr V) : @sql_pred V :=
  fun r => x ← a r; y ← b r; Some (x <? y).

(** [DataSource.type] on a row joined with its data source. *)
Definition col_source_type (sources : gmap Z data_source) : belief V -> option string :=
  fun r => ds_type <$> sources !! b_data_source_id r.

Definition sql_in_ (a : belief V -> option string) (l : list string) : @sql_pred V :=
  fun r => x ← a r; Some (bool_decide (x ∈ l)).

(** The row of the query for a row of [cls] joined with its asset. *)
Definition belief_of (row : timed_value) (a : asset) : belief V := {|
  b_datetime := tv_datetime row;
  b_value := tv_value row;
  b_horizon := tv_horizon row;
  b_data_source_id := tv_data_source_id row;
  b_event_resolution := a_event_resolution a;
|}.

(** [create_beliefs_query], on the table of [cls] and, by primary key, the
    tables of the data sources and of the asset class. The joins keep a row
    when its data source and its asset exist. [start] is a datetime where it
    is subtracted from, so [start - asset_class.event_resolution] is the
    column expression of the difference. *)
Definition create_beliefs_query
    (table : list timed_value)
    (sources : gmap Z data_source) (assets : gmap Z asset)
    (asset_name : string) (start end_ : option datetime) : Query V :=
  let query :=
    omap
      (fun row =>
         _ ← sources !! tv_data_source_id row;
         a ← assets !! tv_asset_id row;
         if bool_decide (a_name a = asset_name) then Some (belief_of row a) else None)
      table in
  let query :=
    match start with
    | Some start =>
        query_filter query
          (sql_gt col_datetime (sql_sub (bindparam (Some start)) col_event_resolution))
    | None => query
    end in
  let query :=
    match end_ with
    | Some end_ => query_filter query (sql_lt col_datetime (bindparam (Some end_)))
    | None => query
    end in
  query.

Definition add_source_type_filter
    (sources : gmap Z data_source) (query : Query V)
    (source_types : option (list string)) : Query V :=
  match source_types with
  | Some ((_ :: _) as source_types) =>
      query_filter query (sql_in_ (col_source_type sources) source_types)
  | _ => query
  end.

End Tables.

Arguments timed_value V : clear implicits.

Section Results.

(** The type of the values in the rows of a result. *)
Context {cell : Type}.

(** [read_sqlalchemy_results], on the rows that [session.execute] fetched:
    a row is its values in the order of its columns, each with the name of
    its column. *)
Definition read_sqlalchemy_results (data : list (list (string * cell)))
  : list (gmap string cell) :=
  match data with
  | [] => []
  | _ =>
      foldl
        (fun results row =>
           results ++ [foldl (fun d '(key, value) => <[key := value]> d) ∅ row])
        [] data
  end.

End Results.

End BeliefQueries.

(** ** More of bvp/data/services/forecasting.py *)

Module ForecastingMore.

(** [num_forecasts]; [None] stands for [ZeroDivisionError]. *)
Definition num_forecasts (start end_ : datetime) (resolution : timedelta) : option Z :=
  Lags.floordiv (end_ - start) resolution.

End ForecastingMore.

(** ** bvp/api/v1_1/tests/utils.py *)

Module TestMessages.

(** The values of a message: a string, a list of strings, or a tuple of
    strings. *)
Inductive field :=
  | Text (s : string)
  | TextList (l : list string)
  | TextTuple (l : list string).

(** [message["connections"][0]]; [None] stands for the [KeyError],
    [IndexError] or [TypeError] of a message without a non-empty list of
    connections. *)
Definition first_connection (message : gmap string field) : option field :=
  match message !! "connections" with
  | Some (TextList (c :: _)) => Some (Text c)
  | _ => None
  end.

(** [message_for_get_prognosis]; [None] stands for an exception. *)
Definition message_for_get_prognosis
    (no_horizon invalid_horizon rolling_horizon no_data no_resolution
     single_connection timezone_alternative : bool) : option (gmap string field) :=
  let message : gmap string field :=
    <["unit" := Text "MW"]>
    (<["connections" := TextList ["CS 1"; "CS 2"; "CS 3"]]>
    (<["resolution" := Text "PT15M"]>
    (<["horizon" := Text "R/PT6H"]>
    (<["duration" := Text "PT1H30M"]>
    (<["start" := Text "2015-01-01T00:00:00Z"]>
    (<["type" := Text "GetPrognosisRequest"]> ∅)))))) in
  let message :=
    if no_horizon then delete "start" (delete "horizon" message)
    else if invalid_horizon then <["horizon" := Text "T6H"]> message
    else if rolling_horizon then <["horizon" := Text "R/PT6H"]> message
    else message in
  let message :=
    if no_data then <["start" := TextTuple ["2010-01-01T00:00:00Z"]]> message
    else message in
  let message :=
    if no_resolution then delete "resolution" message else message in
  message ←
    (if single_connection then
       connection ← first_connection message;
       Some (delete "connections" (<["connection" := connection]> message))
     else Some message);
  let message :=
    if timezone_alternative
    then <["start" := TextTuple ["2015-01-01T00:00:00+00:00"]]> message
    else message in
  Some message.

(** [message[key]] of the message that a call returned, [None] when the
    message has no such key. *)
Definition message_field (key : string) (message : option (gmap string field))
  : option field :=
  message ≫= (.!! key).

End TestMessages.

(** ** More sample data *)

Module MoreSamples.

Definition wind : ForecastingUtils.generic_asset :=
  {| ForecastingUtils.ga_name := "wind" |}.

Definition wind_assets : gmap Z ForecastingUtils.generic_asset := {[ 1 := wind ]}.

(** Values of the wind asset from 0:00 to 0:45. *)
Definition wind_values : list ForecastingUtils.timed_value :=
  [ {| ForecastingUtils.tv_datetime := 0; ForecastingUtils.tv_owner_id := 1 |};
    {| ForecastingUtils.tv_datetime := minutes 45; ForecastingUtils.tv_owner_id := 1 |} ].




End MoreSamples.

(** * Properties *)

(** ** Data availability and the query window *)

Module ForecastingUtilsProps.
Import ForecastingUtils.

Lemma first_asc_None rows : first_asc rows = None <-> rows = [].
Proof.
  destruct rows as [|r rs]; simpl; [tauto|].
  split; [|discriminate].
  destruct (first_asc rs); [destruct (_ <=? _)|]; discriminate.
Qed.

Lemma first_desc_None rows : first_desc rows = None <-> rows = [].
Proof.
  destruct rows as [|r rs]; simpl; [tauto|].
  split; [|discriminate].
  destruct (first_desc rs); [destruct (_ <=? _)|]; discriminate.
Qed.

Lemma first_asc_least rows f :
  first_asc rows = Some f ->
  f ∈ rows /\ forall r, r ∈ rows -> tv_datetime f <= tv_datetime r.
Proof.
  revert f. induction rows as [|x rs IH]; intros f; simpl; [discriminate|].
  destruct (first_asc rs) as [m|] eqn:Hm.
  - destruct (IH m eq_refl) as [Hin Hle].
    destruct (Z.leb_spec (tv_datetime x) (tv_datetime m)); intros [= <-].
    + split; [left|]. intros r [->|Hr]%elem_of_cons; [lia|].
      specialize (Hle r Hr). lia.
    + split; [by right|]. intros r [->|Hr]%elem_of_cons; [lia|auto].
  - intros [= <-]. apply first_asc_None in Hm as ->.
    split; [left|]. intros r [->|Hr]%elem_of_cons; [lia|].
    by apply elem_of_nil in Hr.
Qed.

Lemma first_desc_greatest rows l :
  first_desc rows = Some l ->
  l ∈ rows /\ forall r, r ∈ rows -> tv_datetime r <= tv_datetime l.
Proof.
  revert l. induction rows as [|x rs IH]; intros l; simpl; [discriminate|].
  destruct (first_desc rs) as [m|] eqn:Hm.
  - destruct (IH m eq_refl) as [Hin Hle].
    destruct (Z.leb_spec (tv_datetime m) (tv_datetime x)); intros [= <-].
    + split; [left|]. intros r [->|Hr]%elem_of_cons; [lia|].
      specialize (Hle r Hr). lia.
    + split; [by right|]. intros r [->|Hr]%elem_of_cons; [lia|auto].
  - intros [= <-]. apply first_desc_None in Hm as ->.
    split; [left|]. intros r [->|Hr]%elem_of_cons; [lia|].
    by apply elem_of_nil in Hr.
Qed.

Lemma py_max_fold xs : forall x,
  x <= py_max x xs /\ (forall y, y ∈ xs -> y <= py_max x xs)
  /\ py_max x xs ∈ x :: xs.
Proof.
  unfold py_max. induction xs as [|a xs IH]; intros x; simpl.
  - split; [lia|]. split; [|left]. intros y Hy. by apply elem_of_nil in Hy.
  - destruct (IH (Z.max x a)) as (H1 & H2 & H3).
    split; [lia|]. split.
    + intros y [->|Hy]%elem_of_cons; [lia|auto].
    + apply elem_of_cons in H3 as [->|H3].
      * destruct (Z.max_spec x a) as [[_ ->]|[_ ->]]; [right; left|left].
      * right. by right.
Qed.

(** C8. [get_query_window] returns [(training_start, end)] for no lags and
    [(training_start - max(lags), end)] otherwise, [max(lags)] being a lag
    that no lag exceeds; so the query starts at or before
    [training_start - lag] for every lag, and ends at [end]. *)
Theorem get_query_window_spec (training_start end_ : datetime) (lags : list timedelta) :
  (lags = [] -> get_query_window training_start end_ lags = (training_start, end_))
  /\ (lags <> [] ->
      exists m, m ∈ lags /\ (forall lag, lag ∈ lags -> lag <= m)
        /\ get_query_window training_start end_ lags = (training_start - m, end_))
  /\ (forall lag, lag ∈ lags ->
      (get_query_window training_start end_ lags).1 <= training_start - lag)
  /\ (get_query_window training_start end_ lags).2 = end_.
Proof.
  destruct lags as [|l ls]; simpl.
  - repeat split; try done. intros lag Hlag. by apply elem_of_nil in Hlag.
  - destruct (py_max_fold ls l) as (H1 & H2 & H3).
    repeat split; try done.
    + intros _. exists (py_max l ls). split; [done|]. split; [|done].
      intros lag [->|Hlag]%elem_of_cons; auto.
    + intros lag [->|Hlag]%elem_of_cons; [lia|]. specialize (H2 lag Hlag). lia.
Qed.

Lemma get_query_window_spec_witness :
  get_query_window 100 200 [hours 1; hours 24; hours 2] = (100 - hours 24, 200)
  /\ (get_query_window 100 200 [hours 1; hours 24; hours 2]).1 <= 100 - hours 2.
Proof.
  destruct (get_query_window_spec 100 200 [hours 1; hours 24; hours 2])
    as (_ & _ & Hle & _).
  split; [reflexivity|]. apply Hle. right. right. left.
Defined.

(** C3. [check_data_availability] raises [NotEnoughDataException] exactly
    when the asset has no value at all, or its earliest value is later than
    the start of the query window, or the end of the query window less the
    horizon is later than its latest value plus 15 minutes; otherwise it
    returns. *)
Theorem check_data_availability_raises_iff
    (as_bvp_time : datetime -> datetime)
    (assets : gmap Z generic_asset) (values : list timed_value)
    (asset : generic_asset) (forecast_start forecast_end : datetime)
    (query_window : datetime * datetime) (horizon : timedelta) :
  let q := values_of assets values (ga_name asset) in
  let result :=
    check_data_availability as_bvp_time assets values asset
      forecast_start forecast_end query_window horizon in
  let not_enough :=
    q = []
    \/ (exists first_value, first_value ∈ q
          /\ (forall r, r ∈ q -> tv_datetime first_value <= tv_datetime r)
          /\ query_window.1 < as_bvp_time (tv_datetime first_value))
    \/ (exists last_value, last_value ∈ q
          /\ (forall r, r ∈ q -> tv_datetime r <= tv_datetime last_value)
          /\ query_window.2 - horizon
               > as_bvp_time (tv_datetime last_value) + minutes 15) in
  ((exists why, result = Raises (NotEnoughDataException why)) <-> not_enough)
  /\ (~ not_enough -> result = Returns tt).
Proof.
  intros q result not_enough.
  assert (Hsame : forall a b : timed_value,
    a ∈ q -> b ∈ q ->
    (forall r, r ∈ q -> tv_datetime a <= tv_datetime r) ->
    (forall r, r ∈ q -> tv_datetime b <= tv_datetime r) ->
    tv_datetime a = tv_datetime b).
  { intros a b Ha Hb Hla Hlb. specialize (Hla b Hb). specialize (Hlb a Ha). lia. }
  assert (Hsame' : forall a b : timed_value,
    a ∈ q -> b ∈ q ->
    (forall r, r ∈ q -> tv_datetime r <= tv_datetime a) ->
    (forall r, r ∈ q -> tv_datetime r <= tv_datetime b) ->
    tv_datetime a = tv_datetime b).
  { intros a b Ha Hb Hla Hlb. specialize (Hla b Hb). specialize (Hlb a Ha). lia. }
  subst result. unfold check_data_availability. fold q.
  destruct (first_asc q) as [f|] eqn:Hf.
  2:{ apply first_asc_None in Hf.
      split; [split; [intros _; by left | eauto]|]. intros Hn. destruct Hn. by left. }
  destruct (first_asc_least _ _ Hf) as [Hfin Hfle].
  destruct (first_desc q) as [l|] eqn:Hl.
  2:{ apply first_desc_None in Hl. rewrite Hl in Hfin. by apply elem_of_nil in Hfin. }
  destruct (first_desc_greatest _ _ Hl) as [Hlin Hlge].
  assert (Hne : q <> []) by (intros E; rewrite E in Hfin; by apply elem_of_nil in Hfin).
  destruct (Z.ltb_spec query_window.1 (as_bvp_time (tv_datetime f))) as [H1|H1].
  { split; [split; [|eauto]|].
    - intros _. right. left. eauto.
    - intros Hn. destruct Hn. right. left. eauto. }
  destruct (Z.ltb_spec (as_bvp_time (tv_datetime l) + minutes 15)
              (query_window.2 - horizon)) as [H2|H2].
  { split; [split; [|eauto]|].
    - intros _. right. right. exists l. repeat split; [done..|lia].
    - intros Hn. destruct Hn. right. right. exists l. repeat split; [done..|lia]. }
  split; [|done]. split; [intros [why [=]]|].
  intros [E|[(a & Ha & Hla & Hlt)|(b & Hb & Hlb & Hgt)]]; [done| |].
  - rewrite (Hsame a f) in Hlt by done. lia.
  - rewrite (Hsame' b l) in Hgt by done. lia.
Qed.

Lemma check_data_availability_raises_iff_witness :
  check_data_availability (fun t => t)
    {[ 1 := {| ga_name := "wind" |} ]}
    [ {| tv_datetime := 0; tv_owner_id := 1 |};
      {| tv_datetime := minutes 45; tv_owner_id := 1 |} ]
    {| ga_name := "wind" |} (hours 2) (hours 3) (0, hours 2) (hours 1)
  = Returns tt.
Proof.
  apply check_data_availability_raises_iff.
  assert (Hq : values_of {[ 1 := {| ga_name := "wind" |} ]}
                 [ {| tv_datetime := 0; tv_owner_id := 1 |};
                   {| tv_datetime := minutes 45; tv_owner_id := 1 |} ] "wind"
               = [ {| tv_datetime := 0; tv_owner_id := 1 |};
                   {| tv_datetime := minutes 45; tv_owner_id := 1 |} ])
    by (vm_compute; reflexivity).
  cbv zeta. cbn [ga_name]. rewrite Hq.
  intros [E|[(a & Ha & Hla & Hlt)|(b & Hb & Hlb & Hgt)]].
  - discriminate.
  - specialize (Hla {| tv_datetime := 0; tv_owner_id := 1 |} ltac:(left)).
    simpl in Hla, Hlt. lia.
  - specialize (Hlb {| tv_datetime := minutes 45; tv_owner_id := 1 |}
                  ltac:(right; left)).
    simpl in Hlb, Hgt. unfold minutes, hours in *. lia.
Defined.

End ForecastingUtilsProps.

(** ** Belief-query filters *)

Module QueriesProps.
Import Queries Samples.

Section Filters.

Context {V : Type}.
Implicit Types (query : Query V) (r : belief V).

Lemma elem_of_bool_filter {A} (f : A -> bool) (l : list A) x :
  x ∈ List.filter f l <-> x ∈ l /\ f x = true.
Proof. rewrite !list_elem_of_In. apply filter_In. Qed.

Lemma elem_of_query_filter query (criterion : sql_pred) r :
  r ∈ query_filter query criterion <-> r ∈ query /\ criterion r = Some true.
Proof.
  unfold query_filter. rewrite elem_of_bool_filter.
  destruct (criterion r) as [[]|]; simpl; intuition congruence.
Qed.

Lemma query_filter_ext query (criterion : sql_pred) (f : belief V -> bool) :
  (forall r, is_true (criterion r) = f r) ->
  query_filter query criterion = List.filter f query.
Proof. intros H. apply List.filter_ext. exact H. Qed.

(** The sources that [add_user_source_filter] ignores. *)
Lemma elem_of_ignorable (sources : gmap Z data_source) (ids : list Z) (id : Z) :
  id ∈ (List.filter
          (fun s => bool_decide (ds_type s.2 = "user")
                    && negb (bool_decide (s.1 ∈ ids)))
          (map_to_list sources)).*1
  <-> exists s, sources !! id = Some s /\ ds_type s = "user" /\ id ∉ ids.
Proof.
  rewrite list_elem_of_fmap. split.
  - intros ([i s] & -> & [Hin Hf]%elem_of_bool_filter).
    apply elem_of_map_to_list in Hin. simpl in *.
    apply andb_true_iff in Hf as [Hu Hn].
    apply bool_decide_eq_true in Hu. apply negb_true_iff in Hn.
    apply bool_decide_eq_false in Hn. eauto.
  - intros (s & Hs & Hu & Hn). exists (id, s). split; [done|].
    apply elem_of_bool_filter. split; [by apply elem_of_map_to_list|].
    simpl. apply andb_true_iff. split.
    + by apply bool_decide_eq_true.
    + apply negb_true_iff. by apply bool_decide_eq_false.
Qed.

Lemma user_source_filter_nonempty (sources : gmap Z data_source) query
    (i : Z) (ids : list Z) r :
  r ∈ query_filter query
        (sql_notin col_data_source_id
           (List.filter
              (fun s => bool_decide (ds_type s.2 = "user")
                        && negb (bool_decide (s.1 ∈ i :: ids)))
              (map_to_list sources)).*1)
  <-> r ∈ query
      /\ (forall s, sources !! b_data_source_id r = Some s ->
            ds_type s = "user" -> b_data_source_id r ∈ i :: ids).
Proof.
  rewrite elem_of_query_filter. unfold sql_notin, col_data_source_id. simpl.
  split; intros [Hq H]; (split; [done|]).
  - intros s Hs Hu. injection H as H. apply negb_true_iff in H.
    apply bool_decide_eq_false in H.
    destruct (decide (b_data_source_id r ∈ i :: ids)) as [|Hn]; [done|].
    destruct H. apply elem_of_ignorable. eauto.
  - f_equal. apply negb_true_iff. apply bool_decide_eq_false.
    intros (s & Hs & Hu & Hn)%elem_of_ignorable. eauto.
Qed.

Lemma query_filter_unknown query (criterion : sql_pred) :
  (forall r, criterion r = None) -> query_filter query criterion = [].
Proof.
  intros H. unfold query_filter.
  induction query as [|r query IH]; simpl; [done|]. by rewrite H.
Qed.

Lemma bool_filter_filter {A} (f g : A -> bool) (l : list A) :
  List.filter g (List.filter f l) = List.filter (fun x => f x && g x) l.
Proof.
  induction l as [|x l IH]; simpl; [done|].
  destruct (f x); simpl; [destruct (g x)|]; by rewrite IH.
Qed.

(** The rows that pass the belief-time criterion of [add_horizon_filter]:
    all of them when no belief time is given. *)
Lemma belief_time_stage query (belief_time : datetime) :
  query_filter query
    (sql_le (sql_sub event_end col_horizon) (bindparam (Some belief_time)))
  = List.filter
      (fun r => b_datetime r + b_event_resolution r - b_horizon r <=? belief_time)
      query.
Proof. apply query_filter_ext. intros r. reflexivity. Qed.

(** With the end of the query window given, the fixed-belief-time bound is
    [bound - (end - (datetime + event_resolution))] on every row. *)
Lemma fixed_belief_horizon_end (bound : timedelta) (end_ : datetime) :
  exists h : sql_expr,
    fixed_belief_horizon bound (Some end_) = Returns h
    /\ forall r, h r = Some (bound - (end_ - (b_datetime r + b_event_resolution r))).
Proof. eexists. split; [reflexivity|]. done. Qed.

(** Without it the bound is NULL on every row. *)
Lemma fixed_belief_horizon_no_end (bound : timedelta) :
  exists h : sql_expr,
    fixed_belief_horizon bound None = Returns h /\ forall r, h r = None.
Proof. eexists. split; [reflexivity|]. done. Qed.

(** A belief time filters the query before the horizon window is looked at. *)
Lemma add_horizon_filter_stage query
    (end_ : option datetime) (horizon_window : option timedelta * option timedelta)
    (rolling : bool) (belief_time : datetime) :
  add_horizon_filter query end_ horizon_window rolling (Some belief_time)
  = add_horizon_filter
      (List.filter
         (fun r => b_datetime r + b_event_resolution r - b_horizon r <=? belief_time)
         query)
      end_ horizon_window rolling None.
Proof. unfold add_horizon_filter. by rewrite belief_time_stage. Qed.

(** [add_horizon_filter] never raises: the horizon window is a filter on
    the rows. *)
Lemma add_horizon_filter_window
    (end_ : option datetime) (horizon_window : option timedelta * option timedelta)
    (rolling : bool) :
  exists window : belief V -> bool,
    forall query,
      add_horizon_filter query end_ horizon_window rolling None
      = Returns (List.filter window query).
Proof.
  destruct horizon_window as [[short|] [long|]]; unfold add_horizon_filter.
  - destruct (short =? long), rolling, end_; eexists; intros query; simpl;
      unfold query_filter; rewrite ?bool_filter_filter; reflexivity.
  - destruct rolling, end_; eexists; intros query; simpl;
      unfold query_filter; reflexivity.
  - destruct rolling, end_; eexists; intros query; simpl;
      unfold query_filter; reflexivity.
  - exists (fun _ => true). intros query. simpl. by rewrite List.filter_true.
Qed.

(** C7. With a non-empty [user_source_ids], [add_user_source_filter] keeps
    every row whose data source is not of type "user", and of the rows
    whose data source is of type "user" exactly those whose
    [data_source_id] is among [user_source_ids]; it keeps rows of the query
    only, and with [user_source_ids] [None] or empty it returns the query
    unchanged. *)
Theorem add_user_source_filter_spec
    (sources : gmap Z data_source) query (user_source_ids : option (Z + list Z)) :
  let result := add_user_source_filter sources query user_source_ids in
  (forall ids,
     user_source_ids = Some (inr ids)
     \/ (exists i, user_source_ids = Some (inl i) /\ ids = [i]) ->
     ids <> [] ->
     forall r s, r ∈ query -> sources !! b_data_source_id r = Some s ->
       (ds_type s <> "user" -> r ∈ result)
       /\ (ds_type s = "user" -> (r ∈ result <-> b_data_source_id r ∈ ids)))
  /\ (forall r, r ∈ result -> r ∈ query)
  /\ (user_source_ids = None \/ user_source_ids = Some (inr []) -> result = query).
Proof.
  intros result. split; [|split].
  - intros ids Hids Hne r s Hr Hs.
    assert (Hres : r ∈ result <->
              r ∈ query /\ (forall s, sources !! b_data_source_id r = Some s ->
                              ds_type s = "user" -> b_data_source_id r ∈ ids)).
    { subst result. destruct Hids as [->|(i & -> & ->)].
      - destruct ids as [|i ids]; [done|]. apply user_source_filter_nonempty.
      - apply user_source_filter_nonempty. }
    rewrite Hres. split.
    + intros Hu. split; [done|]. intros s' Hs' Hu'. congruence.
    + intros Hu. split; [intros [_ H]; eauto|].
      intros Hin. split; [done|]. auto.
  - intros r. subst result. unfold add_user_source_filter.
    destruct user_source_ids as [[i|[|i ids]]|]; try done;
      by intros [? _]%elem_of_query_filter.
  - subst result. by intros [->| ->].
Qed.

(** C5, amended. When [belief_time] is not [None], [add_horizon_filter]
    first keeps exactly the rows whose belief time, the end of the event
    ([datetime + event_resolution]) less the row's horizon, is at or before
    [belief_time], and then applies the horizon window to these rows: with
    the window [(None, None)] it returns exactly these rows, and with any
    window every row it returns is one of them. *)
Theorem add_horizon_filter_belief_time query
    (end_ : option datetime) (horizon_window : option timedelta * option timedelta)
    (rolling : bool) (belief_time : datetime) :
  let known := fun r =>
    b_datetime r + b_event_resolution r - b_horizon r <=? belief_time in
  add_horizon_filter query end_ horizon_window rolling (Some belief_time)
  = add_horizon_filter (List.filter known query) end_ horizon_window rolling None
  /\ add_horizon_filter query end_ (None, None) rolling (Some belief_time)
     = Returns (List.filter known query)
  /\ (forall result r,
        add_horizon_filter query end_ horizon_window rolling (Some belief_time)
        = Returns result ->
        r ∈ result ->
        r ∈ query
        /\ b_datetime r + b_event_resolution r - b_horizon r <= belief_time).
Proof.
  intros known. split; [apply add_horizon_filter_stage|]. split.
  - unfold add_horizon_filter. by rewrite belief_time_stage.
  - intros result r. rewrite add_horizon_filter_stage.
    destruct (add_horizon_filter_window end_ horizon_window rolling) as [w Hw].
    rewrite Hw. intros [= <-] [[Hr Hk]%elem_of_bool_filter _]%elem_of_bool_filter.
    split; [done|]. by apply Z.leb_le.
Qed.

(** C6, amended. With [short_horizon] and [long_horizon] both given and
    equal, [add_horizon_filter] keeps, of the rows that pass the belief-time
    criterion (all rows when [belief_time] is [None]), with [rolling] exactly
    those whose horizon equals [short_horizon], and without [rolling], the
    end of the query window being given, exactly those whose horizon equals
    [short_horizon] less the time from the end of the event
    ([datetime + event_resolution]) to the end of the window. *)
Theorem add_horizon_filter_unique_horizon query
    (end_ : option datetime) (window_end : datetime) (short_horizon : timedelta)
    (belief_time : option datetime) :
  let incoming :=
    match belief_time with
    | Some belief_time =>
        List.filter
          (fun r => b_datetime r + b_event_resolution r - b_horizon r
                    <=? belief_time)
          query
    | None => query
    end in
  add_horizon_filter query end_ (Some short_horizon, Some short_horizon) true
    belief_time
  = Returns (List.filter (fun r => b_horizon r =? short_horizon) incoming)
  /\ add_horizon_filter query (Some window_end)
       (Some short_horizon, Some short_horizon) false belief_time
     = Returns
         (List.filter
            (fun r => b_horizon r
                      =? short_horizon
                         - (window_end - (b_datetime r + b_event_resolution r)))
            incoming).
Proof.
  intros incoming.
  destruct belief_time as [bt|]; rewrite ?add_horizon_filter_stage;
    subst incoming; unfold add_horizon_filter; rewrite Z.eqb_refl; done.
Qed.

(** C9, amended. [add_horizon_filter] does not guard [end] in the fixed
    belief-time branches, and it does not fail: called without [rolling],
    with [end] [None] and a horizon bound, it returns a query whose horizon
    criterion compares with NULL, so the query has no rows. *)
Theorem add_horizon_filter_no_end query
    (short_horizon long_horizon : option timedelta) (belief_time : option datetime) :
  short_horizon <> None \/ long_horizon <> None ->
  add_horizon_filter query None (short_horizon, long_horizon) false belief_time
  = Returns [].
Proof.
  intros Hbound.
  assert (H : forall q : Query V,
    add_horizon_filter q None (short_horizon, long_horizon) false None = Returns []).
  { intros q. unfold add_horizon_filter.
    destruct short_horizon as [short|], long_horizon as [long|];
      [destruct (short =? long)|..]; simpl;
      rewrite ?query_filter_unknown by done; try done.
    by destruct Hbound. }
  destruct belief_time as [bt|]; [rewrite add_horizon_filter_stage|]; apply H.
Qed.

End Filters.

(** C5, as stated, fails: a row known three hours before its event passes the
    belief-time criterion and is still dropped by a horizon window of five
    hours. *)
Lemma add_horizon_filter_belief_time_not_exact :
  let r := wind_at 0 (hours 3) 1 in
  b_datetime r + b_event_resolution r - b_horizon r <= 0
  /\ add_horizon_filter [r] None (Some (hours 5), Some (hours 5)) true (Some 0)
     = Returns [].
Proof. split; [by vm_compute | reflexivity]. Qed.

Lemma add_horizon_filter_belief_time_witness :
  add_horizon_filter [wind_at 0 (hours 3) 1; wind_at (hours 4) (hours 3) 1]
    None (None, None) true (Some 0)
  = Returns [wind_at 0 (hours 3) 1]
  /\ b_datetime (wind_at 0 (hours 3) 1) + b_event_resolution (wind_at 0 (hours 3) 1)
     - b_horizon (wind_at 0 (hours 3) 1) <= 0.
Proof.
  destruct (add_horizon_filter_belief_time
              [wind_at 0 (hours 3) 1; wind_at (hours 4) (hours 3) 1]
              None (None, None) true 0) as (_ & Hexact & Hknown).
  split; [exact Hexact|].
  apply (Hknown [wind_at 0 (hours 3) 1]); [reflexivity | left].
Defined.

(** C6, as stated, fails: a row whose horizon is the one asked for is dropped
    when the belief time asked for is earlier than the row's. *)
Lemma add_horizon_filter_unique_horizon_not_exact :
  let r := wind_at 0 (hours 5) 1 in
  b_horizon r = hours 5
  /\ add_horizon_filter [r] None (Some (hours 5), Some (hours 5)) true
       (Some (- hours 6))
     = Returns [].
Proof. split; reflexivity. Qed.

(** C9, as stated, fails: the call returns. *)
Lemma add_horizon_filter_no_end_returns :
  returns (add_horizon_filter [wind_at 0 (hours 5) 1] None
             (Some (hours 5), None) false None)
  /\ forall e, add_horizon_filter [wind_at 0 (hours 5) 1] None
                 (Some (hours 5), None) false None <> Raises e.
Proof. split; [by eexists | discriminate]. Qed.

Lemma add_horizon_filter_no_end_witness :
  add_horizon_filter [wind_at 0 (hours 5) 1] None
    (Some (hours 5), Some (hours 5)) false (Some (hours 1))
  = Returns [].
Proof. apply add_horizon_filter_no_end. left. discriminate. Defined.

Lemma add_user_source_filter_spec_witness :
  wind_at 0 0 3 ∈ add_user_source_filter two_users_and_a_script
                    [wind_at 0 0 1; wind_at 0 0 2; wind_at 0 0 3] (Some (inl 1))
  /\ wind_at 0 0 2 ∉ add_user_source_filter two_users_and_a_script
                       [wind_at 0 0 1; wind_at 0 0 2; wind_at 0 0 3] (Some (inl 1)).
Proof.
  pose proof (add_user_source_filter_spec two_users_and_a_script
                [wind_at 0 0 1; wind_at 0 0 2; wind_at 0 0 3] (Some (inl 1))) as H0.
  cbv zeta in H0. destruct H0 as (H & _ & _).
  split.
  - destruct (H [1] ltac:(right; by exists 1) ltac:(done) (wind_at 0 0 3)
                {| ds_label := "forecaster"; ds_type := "script" |}
                ltac:(right; right; left) eq_refl) as [Hkeep _].
    apply Hkeep. discriminate.
  - destruct (H [1] ltac:(right; by exists 1) ltac:(done) (wind_at 0 0 2)
                {| ds_label := "bob"; ds_type := "user" |}
                ltac:(right; left) eq_refl) as [_ Huser].
    intros Hin. apply (Huser eq_refl) in Hin.
    apply list_elem_of_singleton in Hin. discriminate.
Defined.

End QueriesProps.

(** ** Forecasting jobs *)

Module ForecastingProps.
Import Forecasting.

Section JobsProps.

Context {params : Type}.
Variable forecast_horizons_for : timedelta -> list timedelta.
Variables (timed_value_type : string) (asset_id : Z).
Variables (start_of_roll end_of_roll : datetime).
Variable custom_model_params : option params.

(** The job of a horizon. *)
Let job_for (horizon : timedelta) : Job params := {|
  job_asset_id := asset_id;
  job_timed_value_type := timed_value_type;
  job_horizon := horizon;
  job_start := start_of_roll + horizon;
  job_end := end_of_roll + horizon;
  job_custom_model_params := custom_model_params;
|}.

Lemma create_jobs_map (enqueue : bool) (horizons : list timedelta) :
  forall jobs queue : list (Job params),
    create_jobs timed_value_type asset_id start_of_roll end_of_roll
      custom_model_params enqueue horizons jobs queue
    = (jobs ++ map job_for horizons,
       if enqueue then queue ++ map job_for horizons else queue).
Proof.
  induction horizons as [|h hs IH]; intros jobs queue; simpl.
  - rewrite !app_nil_r. by destruct enqueue.
  - rewrite IH. destruct enqueue; by rewrite <- !app_assoc.
Qed.

(** C4. For a non-empty list of horizons, [create_forecasting_jobs] returns
    one job per horizon, in the order of the horizons: the job at each
    position is for the horizon at that position, from
    [start_of_roll + horizon] to [end_of_roll + horizon]; these jobs, in
    this order, are what it puts on the queue when [enqueue] is set. *)
Theorem create_forecasting_jobs_per_horizon
    (resolution : option timedelta) (horizons : list timedelta)
    (enqueue : bool) (queue : list (Job params)) :
  horizons <> [] ->
  exists jobs,
    create_forecasting_jobs forecast_horizons_for timed_value_type asset_id
      start_of_roll end_of_roll resolution (Some horizons)
      custom_model_params enqueue queue
    = (Returns jobs, if enqueue then queue ++ jobs else queue)
    /\ length jobs = length horizons
    /\ forall (i : nat) (horizon : timedelta),
         horizons !! i = Some horizon ->
         exists job,
           jobs !! i = Some job
           /\ job_horizon job = horizon
           /\ job_start job = start_of_roll + horizon
           /\ job_end job = end_of_roll + horizon
           /\ job_asset_id job = asset_id
           /\ job_timed_value_type job = timed_value_type.
Proof.
  intros _. exists (map job_for horizons).
  unfold create_forecasting_jobs. rewrite create_jobs_map. simpl.
  split; [done|]. split; [apply length_map|].
  intros i horizon Hi. exists (job_for horizon).
  split; [|done]. change (map job_for horizons) with (job_for <$> horizons).
  by rewrite list_lookup_fmap, Hi.
Qed.

(** C10. With neither horizons nor a resolution, [create_forecasting_jobs]
    raises, returns no job and leaves the queue as it was. *)
Theorem create_forecasting_jobs_nothing_given
    (enqueue : bool) (queue : list (Job params)) :
  create_forecasting_jobs forecast_horizons_for timed_value_type asset_id
    start_of_roll end_of_roll None None custom_model_params enqueue queue
  = (Raises (Exception
       "Cannot create forecasting jobs - set either horizons or resolution."),
     queue).
Proof. reflexivity. Qed.

End JobsProps.

Lemma create_forecasting_jobs_per_horizon_witness :
  exists jobs : list (Job unit),
    create_forecasting_jobs (fun _ => []) "Power" 7 (hours 15) (hours 17)
      (Some (minutes 15)) (Some [hours 1; hours 6; hours 24]) None true []
    = (Returns jobs, jobs)
    /\ (job_start <$> jobs) = [hours 16; hours 21; hours 39]
    /\ (job_end <$> jobs) = [hours 18; hours 23; hours 41].
Proof.
  destruct (create_forecasting_jobs_per_horizon (params := unit) (fun _ => [])
              "Power" 7 (hours 15) (hours 17) None (Some (minutes 15))
              [hours 1; hours 6; hours 24] true [] ltac:(discriminate))
    as (jobs & Hrun & _ & _).
  exists jobs. split; [exact Hrun|].
  vm_compute in Hrun. injection Hrun as <-. split; reflexivity.
Defined.

(** ** Running a forecasting job *)

Section MakeForecastsProps.

Context {V params ModelSpecs ModelState : Type}.
Variable current_job : option string.
Variable data_source_label : string.
Variable data_sources : list DataSource.
Variable assets markets weather_sensors : list GenericAsset.
Variable hasattr_market_type : GenericAsset -> bool.
Variable supported_horizons : list timedelta.
Variable as_bvp_time : datetime -> datetime.
Variable bvp_now : datetime.
Variable latest_generic_model :
  GenericAsset -> datetime -> datetime -> timedelta -> option timedelta ->
  option params -> outcome (ModelSpecs * string).
Variable set_creation_time : ModelSpecs -> datetime -> ModelSpecs.
Variable make_rolling_forecasts :
  datetime -> datetime -> ModelSpecs -> outcome (list (datetime * V) * ModelState).
Variable save_to_database : list (TimedValue V) -> bool -> outcome unit.
Variable session_flush : outcome unit.
Variable config : gmap string string.

Local Abbreviation preamble :=
  (job_preamble (V := V) current_job data_source_label data_sources
     assets markets weather_sensors).
Local Abbreviation build :=
  (build_forecasts hasattr_market_type as_bvp_time bvp_now latest_generic_model
     set_creation_time make_rolling_forecasts).
Local Abbreviation save := (save_forecasts save_to_database session_flush config).
Local Abbreviation run :=
  (make_forecasts current_job data_source_label data_sources assets markets
     weather_sensors hasattr_market_type supported_horizons as_bvp_time bvp_now
     latest_generic_model set_creation_time make_rolling_forecasts
     save_to_database session_flush config).

Ltac unfold_M :=
  unfold mbind, M_bind, mret, M_ret, lift, call, emit, raise in *.

(** The preamble prints and may add a data source, nothing else, and it
    returns only when there is a current job. *)
Lemma job_preamble_trace (asset_id : Z) (timed_value_type : string)
    (tr tr' : list (event V)) o :
  preamble asset_id timed_value_type tr = (o, tr') ->
  exists evs, tr' = tr ++ evs
    /\ List.filter is_save evs = [] /\ List.filter is_model evs = []
    /\ forall rq_job data_source asset,
         o = Returns (rq_job, data_source, asset) ->
         exists id, rq_job = Some id.
Proof.
  unfold job_preamble, get_data_source. unfold_M.
  destruct (one_or_none _) as [[ds|]|e]; simpl;
    try destruct (get_asset _ _ _ _ _) as [a|e']; simpl;
    try destruct current_job as [id|]; simpl;
    intros [= <- <-]; eexists;
    (split; [rewrite <- ?app_assoc; try reflexivity; by rewrite app_nil_r|]);
    repeat split; try done; intros ? ? ? [= <- _ _]; eauto.
Qed.

(** Building the forecasts starts by asking for the model. *)
Lemma build_forecasts_trace data_source asset (asset_id : Z)
    (timed_value_type : string) (horizon : timedelta) (start end_ : datetime)
    (custom_model_params : option params) (tr tr' : list (event V)) o :
  build data_source asset asset_id timed_value_type horizon start end_
    custom_model_params tr = (o, tr') ->
  exists evs, tr' = tr ++ LatestGenericModel :: evs
    /\ List.filter is_save evs = []
    /\ (returns o -> evs = [MakeRollingForecasts]).
Proof.
  unfold build_forecasts, returns. unfold_M.
  destruct (latest_generic_model _ _ _ _ _ _) as [[specs ident]|e]; simpl.
  - destruct (make_rolling_forecasts _ _ _) as [[forecasts state]|e]; simpl;
      intros [= <- <-]; exists [MakeRollingForecasts];
      by rewrite <- app_assoc.
  - intros [= <- <-]. exists []. split; [done|]. split; [done|]. by intros [? ?].
Qed.

(** Saving only adds to the trace. *)
Lemma save_forecasts_trace (rows : list (TimedValue V)) (tr tr' : list (event V)) o :
  save rows tr = (o, tr') -> exists evs, tr' = tr ++ evs.
Proof.
  unfold save_forecasts, try_except_IntegrityError. unfold_M.
  destruct (save_to_database rows false) as [[]|[]]; simpl;
    try destruct session_flush as [[]|[]]; simpl;
    try destruct (bool_decide _); simpl;
    intros [= <- <-]; rewrite <- ?app_assoc; eauto.
Qed.

(** C1. When the run of [make_forecasts] gets to saving its rows and the
    saving (or the flush after it) raises [IntegrityError], the session is
    rolled back, and then, if the configuration has [BVP_MODE] equal to
    "play", the rows are saved once more, with [overwrite=True], and in any
    other mode nothing is saved after the rollback; before the rollback the
    rows were saved once, without overwriting. *)
Theorem make_forecasts_integrity_retry
    (asset_id : Z) (timed_value_type : string) (horizon : timedelta)
    (start end_ : datetime) (custom_model_params : option params)
    rq_job data_source asset (tr1 tr2 : list (event V)) (rows : list (TimedValue V)) :
  preamble asset_id timed_value_type [] = (Returns (rq_job, data_source, asset), tr1) ->
  horizon ∈ supported_horizons ->
  build data_source asset asset_id timed_value_type horizon start end_
    custom_model_params tr1 = (Returns rows, tr2) ->
  save_to_database rows false = Raises IntegrityError
  \/ (save_to_database rows false = Returns tt
      /\ session_flush = Raises IntegrityError) ->
  let play := bool_decide (default "" (config !! "BVP_MODE") = "play") in
  exists attempt,
    run asset_id timed_value_type horizon start end_ custom_model_params []
    = (if play then save_to_database rows true else Returns tt,
       tr2 ++ attempt
         ++ [LogWarning IntegrityError;
             Stdout "Rolling back due to IntegrityError";
             SessionRollback]
         ++ (if play
             then [Stdout "Saving again, with overwrite=True";
                   SaveToDatabase rows true]
             else []))
    /\ List.filter is_save (tr2 ++ attempt) = [SaveToDatabase rows false].
Proof.
  intros Hpre Hsup Hbuild Hsave play.
  destruct (job_preamble_trace _ _ _ _ _ Hpre) as (evs1 & Htr1 & Hs1 & _ & _).
  destruct (build_forecasts_trace _ _ _ _ _ _ _ _ _ _ _ Hbuild)
    as (evs2 & Htr2 & Hs2 & _).
  assert (Hrun : run asset_id timed_value_type horizon start end_
                   custom_model_params []
                 = save rows tr2).
  { unfold make_forecasts. unfold mbind at 1. unfold M_bind at 1.
    rewrite Hpre. rewrite bool_decide_eq_true_2 by done. cbn [negb].
    unfold mbind at 1. unfold M_bind at 1. by rewrite Hbuild. }
  assert (Hs : List.filter is_save tr2 = []).
  { rewrite Htr2, Htr1. simpl. rewrite !List.filter_app, Hs1. simpl. exact Hs2. }
  rewrite Hrun. clear Hrun Hpre Hbuild.
  unfold save_forecasts, try_except_IntegrityError. unfold_M. fold play.
  destruct Hsave as [->|[-> ->]]; simpl.
  - exists [SaveToDatabase rows false]. split.
    + destruct play; simpl; f_equal; rewrite <- ?app_assoc; reflexivity.
    + by rewrite List.filter_app, Hs.
  - exists [SaveToDatabase rows false; SessionFlush]. split.
    + destruct play; simpl; f_equal; rewrite <- ?app_assoc; reflexivity.
    + by rewrite List.filter_app, Hs.
Qed.

Lemma trace_grows (tr evs evs' : list (event V)) (ev : event V) :
  (tr ++ ev :: evs) ++ evs' <> tr.
Proof.
  intros H. apply (f_equal length) in H.
  rewrite !length_app in H. simpl in H. lia.
Qed.

(** C2, amended. The job, the data source and the asset are looked up
    before the horizon is checked: when one of these lookups raises,
    [make_forecasts] raises what it raised, whatever the horizon. When they
    succeed, nothing has asked for a model or saved a forecast by then, and
    [make_forecasts] stops there with [InvalidHorizonException] if and only
    if the horizon is not among [supported_horizons()]; with a supported
    horizon it goes on to build the model and to save. *)
Theorem make_forecasts_invalid_horizon
    (asset_id : Z) (timed_value_type : string) (horizon : timedelta)
    (start end_ : datetime) (custom_model_params : option params) :
  let result :=
    run asset_id timed_value_type horizon start end_ custom_model_params [] in
  match preamble asset_id timed_value_type [] with
  | (Raises e, tr) => result = (Raises e, tr)
  | (Returns (rq_job, data_source, asset), tr) =>
      exists id, rq_job = Some id
        /\ List.filter is_model tr = [] /\ List.filter is_save tr = []
        /\ (result = (Raises (InvalidHorizonException id horizon), tr)
             <-> horizon ∉ supported_horizons)
        /\ (horizon ∈ supported_horizons ->
            result
            = match build data_source asset asset_id timed_value_type horizon
                      start end_ custom_model_params tr with
              | (Returns rows, tr') => save rows tr'
              | (Raises e, tr') => (Raises e, tr')
              end)
  end.
Proof.
  intros result. subst result.
  destruct (preamble asset_id timed_value_type [])
    as [[[[rq_job data_source] asset]|e] tr] eqn:Hpre.
  2:{ unfold make_forecasts. unfold mbind at 1. unfold M_bind at 1.
      by rewrite Hpre. }
  destruct (job_preamble_trace _ _ _ _ _ Hpre) as (evs & Htr & Hs & Hm & Hid).
  destruct (Hid _ _ _ eq_refl) as [id ->]. exists id.
  simpl in Htr. subst tr. do 3 (split; [done|]).
  assert (Hrun :
    run asset_id timed_value_type horizon start end_ custom_model_params []
    = if bool_decide (horizon ∈ supported_horizons)
      then match build data_source asset asset_id timed_value_type horizon
                   start end_ custom_model_params evs with
           | (Returns rows, tr') => save rows tr'
           | (Raises e, tr') => (Raises e, tr')
           end
      else (Raises (InvalidHorizonException id horizon), evs)).
  { unfold make_forecasts. unfold mbind at 1. unfold M_bind at 1.
    rewrite Hpre. by destruct (bool_decide _). }
  rewrite Hrun. clear Hrun.
  destruct (decide (horizon ∈ supported_horizons)) as [Hin|Hout].
  - rewrite bool_decide_eq_true_2 by done. split; [|done].
    split; [|done]. intros Hrun. exfalso.
    destruct (build _ _ _ _ _ _ _ _ evs) as [[rows|e] tr'] eqn:Hbuild;
      destruct (build_forecasts_trace _ _ _ _ _ _ _ _ _ _ _ Hbuild)
        as (evs' & -> & _).
    + destruct (save rows _) as [o tr''] eqn:Hsave.
      destruct (save_forecasts_trace _ _ _ _ Hsave) as (evs'' & ->).
      injection Hrun as _ Htr. by apply trace_grows in Htr.
    + injection Hrun as _ Htr.
      apply (trace_grows evs evs' [] LatestGenericModel). by rewrite app_nil_r.
  - rewrite bool_decide_eq_false_2 by done. by split.
Qed.

End MakeForecastsProps.

Import Samples.

Lemma make_forecasts_integrity_retry_witness :
  (exists attempt,
     run_job rows_exist {[ "BVP_MODE" := "play" ]} "Power" (hours 6)
     = (Returns tt,
        [SessionAdd seita; Stdout "Running Forecasting Job";
         LatestGenericModel; MakeRollingForecasts]
        ++ attempt
        ++ [LogWarning IntegrityError; Stdout "Rolling back due to IntegrityError";
            SessionRollback]
        ++ [Stdout "Saving again, with overwrite=True";
            SaveToDatabase power_forecasts true]))
  /\ (exists attempt,
       run_job rows_exist ∅ "Power" (hours 6)
       = (Returns tt,
          [SessionAdd seita; Stdout "Running Forecasting Job";
           LatestGenericModel; MakeRollingForecasts]
          ++ attempt
          ++ [LogWarning IntegrityError; Stdout "Rolling back due to IntegrityError";
              SessionRollback]
          ++ [])).
Proof.
  split.
  - destruct (make_forecasts_integrity_retry (params := unit) (ModelSpecs := unit)
                (ModelState := unit)
                (Some "job-1") "forecast by Seita (v1)" [] [turbine] [epex] []
                (fun a => bool_decide (ga_name a = "epex_da"))
                [hours 1; hours 6; hours 24; hours 48]
                (fun t => t) (hours 9)
                (fun _ _ _ _ _ _ => Returns (tt, "linear-OLS"))
                (fun specs _ => specs)
                (fun start _ _ => Returns ([(start, 3); (start + minutes 15, 4)], tt))
                rows_exist (Returns tt) {[ "BVP_MODE" := "play" ]}
                1 "Power" (hours 6) (hours 10) (hours 10 + minutes 30) None
                (Some "job-1") seita turbine
                [SessionAdd seita; Stdout "Running Forecasting Job"]
                [SessionAdd seita; Stdout "Running Forecasting Job";
                 LatestGenericModel; MakeRollingForecasts]
                power_forecasts)
      as (attempt & Hrun & _);
      [vm_compute; reflexivity | right; left | vm_compute; reflexivity
      | left; reflexivity |].
    exists attempt. exact Hrun.
  - destruct (make_forecasts_integrity_retry (params := unit) (ModelSpecs := unit)
                (ModelState := unit)
                (Some "job-1") "forecast by Seita (v1)" [] [turbine] [epex] []
                (fun a => bool_decide (ga_name a = "epex_da"))
                [hours 1; hours 6; hours 24; hours 48]
                (fun t => t) (hours 9)
                (fun _ _ _ _ _ _ => Returns (tt, "linear-OLS"))
                (fun specs _ => specs)
                (fun start _ _ => Returns ([(start, 3); (start + minutes 15, 4)], tt))
                rows_exist (Returns tt) ∅
                1 "Power" (hours 6) (hours 10) (hours 10 + minutes 30) None
                (Some "job-1") seita turbine
                [SessionAdd seita; Stdout "Running Forecasting Job"]
                [SessionAdd seita; Stdout "Running Forecasting Job";
                 LatestGenericModel; MakeRollingForecasts]
                power_forecasts)
      as (attempt & Hrun & _);
      [vm_compute; reflexivity | right; left | vm_compute; reflexivity
      | left; reflexivity |].
    exists attempt. exact Hrun.
Defined.

(** C2, as stated, fails: seven hours is not a supported horizon of
    [run_job], and for a value type without assets the run raises the
    exception of the asset lookup, not [InvalidHorizonException]. *)
Lemma make_forecasts_invalid_horizon_preempted :
  (hours 7 ∉ [hours 1; hours 6; hours 24; hours 48])
  /\ run_job rows_exist ∅ "Solar" (hours 7)
     = (Raises (Exception "Cannot get asset for asset_type 'Solar'"),
        [SessionAdd seita]).
Proof.
  split; [|vm_compute; reflexivity].
  intros H. repeat (apply elem_of_cons in H as [H|H]; [discriminate H|]).
  by apply elem_of_nil in H.
Qed.

Lemma make_forecasts_invalid_horizon_witness :
  run_job rows_exist ∅ "Price" (hours 7)
  = (Raises (InvalidHorizonException "job-1" (hours 7)),
     [SessionAdd seita; Stdout "Running Forecasting Job"]).
Proof.
  pose proof (make_forecasts_invalid_horizon (params := unit) (ModelSpecs := unit)
                (ModelState := unit)
                (Some "job-1") "forecast by Seita (v1)" [] [turbine] [epex] []
                (fun a => bool_decide (ga_name a = "epex_da"))
                [hours 1; hours 6; hours 24; hours 48]
                (fun t => t) (hours 9)
                (fun _ _ _ _ _ _ => Returns (tt, "linear-OLS"))
                (fun specs _ => specs)
                (fun start _ _ => Returns ([(start, 3); (start + minutes 15, 4)], tt))
                rows_exist (Returns tt) ∅
                1 "Price" (hours 7) (hours 10) (hours 10 + minutes 30) None) as H.
  assert (Hpre : job_preamble (V := Z) (Some "job-1") "forecast by Seita (v1)" []
                   [turbine] [epex] [] 1 "Price" []
                 = (Returns (Some "job-1", seita, epex),
                    [SessionAdd seita; Stdout "Running Forecasting Job"]))
    by (vm_compute; reflexivity).
  cbv zeta in H. rewrite Hpre in H.
  destruct H as (id & [= <-] & _ & _ & [_ Hraise] & _).
  apply Hraise.
  intros H. repeat (apply elem_of_cons in H as [H|H]; [discriminate H|]).
  by apply elem_of_nil in H.
Defined.

End ForecastingProps.

(** ** Lags *)

Module LagsProps.
Import ForecastingUtils Lags.

Lemma number_of_nan_lags (h r : Z) : r <> 0 -> 1 + (h - r) / r = h / r.
Proof.
  intros Hr. replace (h - r) with (h + (-1) * r) by lia.
  rewrite Z.div_add by done. lia.
Qed.

Lemma elem_of_lag_list (c p n x : Z) :
  x ∈ (fun L => (L + c) * p) <$> range n <-> exists L, 0 <= L < n /\ x = (c + L) * p.
Proof.
  unfold range. rewrite list_elem_of_fmap. split.
  - intros (L & -> & HL%elem_of_seqZ). exists L. split; [lia|]. f_equal. lia.
  - intros (L & HL & ->). exists L. split; [f_equal; lia|].
    apply elem_of_seqZ. lia.
Qed.

Lemma day_not_zero : days 1 <> 0.
Proof. discriminate. Qed.

Lemma create_lags_lag_list (n_lags : Z) (daily_seasonality : option bool)
    (horizon resolution : timedelta) :
  resolution <> 0 ->
  create_lags n_lags daily_seasonality horizon resolution
  = Some (elements (list_to_set
            (lag_list n_lags daily_seasonality horizon resolution) : gset Z)).
Proof.
  intros Hr. unfold create_lags, lag_list, floordiv.
  rewrite (proj2 (Z.eqb_neq resolution 0)) by done. simpl.
  rewrite number_of_nan_lags by done.
  destruct daily_seasonality as [[]|]; simpl; rewrite ?app_nil_r;
    destruct (horizon <? hours 0); simpl; rewrite ?app_nil_r; try done.
Qed.

(** X1. [create_lags] fails, on a division by zero, exactly when the
    resolution is zero. Otherwise it returns a list without duplicates that
    holds: the zero lag when the horizon is negative; the [n_lags]
    consecutive multiples of the resolution from the horizon rounded down to
    a multiple of the resolution; and, for an asset type with daily
    seasonality, [n_lags] consecutive multiples of a day. *)
Theorem create_lags_members (n_lags : Z) (daily_seasonality : option bool)
    (horizon resolution : timedelta) :
  (create_lags n_lags daily_seasonality horizon resolution = None
   <-> resolution = 0)
  /\ forall lags,
       create_lags n_lags daily_seasonality horizon resolution = Some lags ->
       NoDup lags
       /\ forall x, x ∈ lags <->
            (horizon < 0 /\ x = 0)
            \/ (exists L, 0 <= L < n_lags
                  /\ x = (horizon / resolution + L) * resolution)
            \/ (daily_seasonality = Some true
                /\ exists L, 0 <= L < n_lags
                     /\ x = (1 + (horizon - resolution) / days 1 + L) * days 1).
Proof.
  destruct (decide (resolution = 0)) as [->|Hr].
  - split; [done|]. intros lags. unfold create_lags, floordiv. by simpl.
  - rewrite create_lags_lag_list by done. split; [split; [done|tauto]|].
    intros lags [= <-]. split; [apply NoDup_elements|].
    intros x. rewrite elem_of_elements, elem_of_list_to_set.
    unfold lag_list. rewrite !elem_of_app, elem_of_lag_list.
    assert (H0 : x ∈ (if horizon <? hours 0 then [hours 0] else [])
                 <-> horizon < 0 /\ x = 0).
    { unfold hours. destruct (Z.ltb_spec horizon (0 * 3600000000)).
      - rewrite list_elem_of_singleton. simpl. lia.
      - split; [by intros ?%elem_of_nil|lia]. }
    rewrite H0. destruct daily_seasonality as [[]|].
    + rewrite elem_of_lag_list. intuition.
    + split; [intros [?|[?|?%elem_of_nil]]; tauto|].
      intros [?|[?|[[=] _]]]; tauto.
    + split; [intros [?|[?|?%elem_of_nil]]; tauto|].
      intros [?|[?|[[=] _]]]; tauto.
Qed.

Lemma create_lags_members_witness :
  NoDup (default [] (create_lags 3 None (hours 1) (minutes 15)))
  /\ hours 1 + minutes 15 ∈ default [] (create_lags 3 None (hours 1) (minutes 15)).
Proof.
  destruct (create_lags_members 3 None (hours 1) (minutes 15)) as [_ H].
  destruct (H _ eq_refl) as [Hnodup Hmem].
  split; [exact Hnodup|].
  apply Hmem. right. left. exists 1. split; [lia | reflexivity].
Defined.

Lemma lag_list_plain (n_lags : Z) (daily_seasonality : option bool)
    (horizon resolution : timedelta) :
  0 <= horizon -> daily_seasonality <> Some true ->
  lag_list n_lags daily_seasonality horizon resolution
  = (fun L => (L + horizon / resolution) * resolution) <$> range n_lags.
Proof.
  intros Hh Hd. unfold lag_list, hours.
  rewrite (proj2 (Z.ltb_ge horizon (0 * 3600000000))) by lia.
  destruct daily_seasonality as [[]|]; [done|..]; by rewrite app_nil_r.
Qed.

(** X2. For a positive resolution, a horizon that is not negative and an
    asset type without daily seasonality, the shortest lag of [create_lags]
    is the horizon rounded down to a multiple of the resolution: it is in the
    list when lags are asked for, it is at most the horizon and more than the
    horizon less the resolution, and every lag is a multiple of the
    resolution from it up to [n_lags - 1] resolutions further. *)
Theorem create_lags_shortest (n_lags : Z) (daily_seasonality : option bool)
    (horizon resolution : timedelta) (lags : list timedelta) :
  0 < resolution -> 0 <= horizon -> daily_seasonality <> Some true ->
  create_lags n_lags daily_seasonality horizon resolution = Some lags ->
  let shortest := horizon / resolution * resolution in
  horizon - resolution < shortest <= horizon
  /\ (0 < n_lags -> shortest ∈ lags)
  /\ forall x, x ∈ lags ->
       shortest <= x <= shortest + (n_lags - 1) * resolution
       /\ (resolution | x).
Proof.
  intros Hr Hh Hd Hrun shortest.
  rewrite create_lags_lag_list in Hrun by lia. injection Hrun as <-.
  rewrite lag_list_plain by done.
  assert (Hs : horizon - resolution < shortest <= horizon).
  { subst shortest. pose proof (Z.mul_div_le horizon resolution Hr).
    pose proof (Z.mul_succ_div_gt horizon resolution Hr). lia. }
  split; [done|]. split.
  - intros Hn. rewrite elem_of_elements, elem_of_list_to_set, elem_of_lag_list.
    exists 0. split; [lia|]. subst shortest. f_equal. lia.
  - intros x. rewrite elem_of_elements, elem_of_list_to_set, elem_of_lag_list.
    intros (L & HL & ->). subst shortest. split; [nia|].
    by exists (horizon / resolution + L).
Qed.

Lemma create_lags_shortest_witness :
  hours 1 ∈ default [] (create_lags 2 None (hours 1 + minutes 10) (minutes 15)).
Proof.
  destruct (create_lags_shortest 2 None (hours 1 + minutes 10) (minutes 15)
              (default [] (create_lags 2 None (hours 1 + minutes 10) (minutes 15)))
              ltac:(reflexivity) ltac:(discriminate) ltac:(discriminate) eq_refl)
    as (_ & Hin & _).
  apply Hin. reflexivity.
Defined.

(** X3. For a non-zero resolution and a horizon that is not negative,
    [create_lags] returns exactly [n_lags] lags (none when [n_lags] is
    negative) for an asset type without daily seasonality, and also for one
    with daily seasonality when the resolution is a day: the lags of the
    second round are those of the first, and the set drops them. *)
Theorem create_lags_length (n_lags : Z) (daily_seasonality : option bool)
    (horizon resolution : timedelta) (lags : list timedelta) :
  resolution <> 0 -> 0 <= horizon ->
  daily_seasonality <> Some true \/ resolution = days 1 ->
  create_lags n_lags daily_seasonality horizon resolution = Some lags ->
  length lags = Z.to_nat n_lags.
Proof.
  intros Hr Hh Hd Hrun.
  rewrite create_lags_lag_list in Hrun by done. injection Hrun as <-.
  assert (Hset : (list_to_set (lag_list n_lags daily_seasonality horizon resolution)
                  : gset Z)
                 = list_to_set ((fun L => (L + horizon / resolution) * resolution)
                                  <$> range n_lags)).
  { destruct (decide (daily_seasonality = Some true)) as [->|Hnd].
    - destruct Hd as [Hd| ->]; [done|]. unfold lag_list, hours.
      rewrite (proj2 (Z.ltb_ge horizon (0 * 3600000000))) by lia. simpl.
      rewrite number_of_nan_lags by apply day_not_zero.
      rewrite list_to_set_app_L. apply union_idemp_L.
    - by rewrite lag_list_plain. }
  rewrite Hset.
  change (length (elements ?X)) with (size X).
  rewrite size_list_to_set.
  - unfold range. by rewrite length_fmap, length_seqZ.
  - apply NoDup_fmap_2_strong; [|apply NoDup_seqZ].
    intros L1 L2 _ _ HL. apply Z.mul_cancel_r in HL; [lia|done].
Qed.

Lemma create_lags_length_witness :
  length (default [] (create_lags 2 (Some true) (hours 2) (days 1))) = 2%nat.
Proof.
  apply (create_lags_length 2 (Some true) (hours 2) (days 1));
    [discriminate | discriminate | by right | reflexivity].
Defined.

(** X4. For a positive resolution, a horizon that is not negative, a positive
    number of lags and no daily seasonality, the query window that
    [get_query_window] derives from the lags of [create_lags] starts
    [horizon // resolution + n_lags - 1] resolutions before the start of
    training, in whatever order the lags come. *)
Theorem create_lags_query_window (n_lags : Z) (daily_seasonality : option bool)
    (horizon resolution : timedelta) (lags : list timedelta)
    (training_start end_ : datetime) :
  0 < resolution -> 0 <= horizon -> 0 < n_lags ->
  daily_seasonality <> Some true ->
  create_lags n_lags daily_seasonality horizon resolution = Some lags ->
  get_query_window training_start end_ lags
  = (training_start - (horizon / resolution + n_lags - 1) * resolution, end_).
Proof.
  intros Hr Hh Hn Hd Hrun.
  rewrite create_lags_lag_list in Hrun by lia. injection Hrun as <-.
  rewrite lag_list_plain by done.
  set (lags := elements _).
  assert (Hmem : forall x, x ∈ lags <->
            exists L, 0 <= L < n_lags /\ x = (horizon / resolution + L) * resolution).
  { intros x. subst lags.
    by rewrite elem_of_elements, elem_of_list_to_set, elem_of_lag_list. }
  assert (Hlast : (horizon / resolution + n_lags - 1) * resolution ∈ lags).
  { apply Hmem. exists (n_lags - 1). split; [lia|]. f_equal. lia. }
  destruct lags as [|l ls]; [by apply elem_of_nil in Hlast|].
  unfold get_query_window. f_equal.
  destruct (ForecastingUtilsProps.py_max_fold ls l) as (H1 & H2 & H3).
  apply Hmem in H3 as (L & HL & HmaxL).
  assert (Hle : (horizon / resolution + n_lags - 1) * resolution <= py_max l ls).
  { apply elem_of_cons in Hlast as [->|Hlast]; [done|by apply H2]. }
  rewrite HmaxL in Hle |- *. f_equal. nia.
Qed.

Lemma create_lags_query_window_witness :
  get_query_window (hours 100) (hours 200)
    (default [] (create_lags 3 None (hours 1) (minutes 15)))
  = (hours 100 - (hours 1 + minutes 30), hours 200).
Proof.
  apply (create_lags_query_window 3 None (hours 1) (minutes 15));
    [reflexivity | discriminate | reflexivity | discriminate | reflexivity].
Defined.

End LagsProps.

(** ** What [check_data_availability] reports and suggests *)

Module DataAvailabilityProps.
Import ForecastingUtils ForecastingUtilsProps.

Section Availability.

Variable as_bvp_time : datetime -> datetime.
Variable assets : gmap Z generic_asset.
Variable values : list timed_value.
Variable asset : generic_asset.

Local Abbreviation q := (values_of assets values (ga_name asset)).
Local Abbreviation check :=
  (check_data_availability as_bvp_time assets values asset).

Lemma first_desc_of_first_asc (rows : list timed_value) f :
  first_asc rows = Some f -> exists l, first_desc rows = Some l.
Proof.
  intros Hf. destruct (first_desc rows) as [l|] eqn:Hl; [eauto|].
  apply first_desc_None in Hl. subst rows. discriminate.
Qed.

(** X5. What [check_data_availability] raises is settled in this order: "no
    data at all" exactly when the asset has no values; else a late start of
    the data, with [forecast_start] moved on by the shortfall as suggestion,
    exactly when the query window starts before the earliest value; else an
    early end of the data, with [forecast_end] moved back by the shortfall as
    suggestion, exactly when the window less the horizon ends more than 15
    minutes after the latest value. It raises nothing else. *)
Theorem check_data_availability_reason
    (forecast_start forecast_end : datetime)
    (query_window : datetime * datetime) (horizon : timedelta) :
  let result := check forecast_start forecast_end query_window horizon in
  (result = Raises (NotEnoughDataException NoDataAtAll) <-> q = [])
  /\ (forall s, result = Raises (NotEnoughDataException (DataStartsTooLate s)) <->
        exists f, first_asc q = Some f
          /\ query_window.1 < as_bvp_time (tv_datetime f)
          /\ s = forecast_start + (as_bvp_time (tv_datetime f) - query_window.1))
  /\ (forall s, result = Raises (NotEnoughDataException (DataEndsTooEarly s)) <->
        exists f l, first_asc q = Some f /\ first_desc q = Some l
          /\ as_bvp_time (tv_datetime f) <= query_window.1
          /\ as_bvp_time (tv_datetime l) + minutes 15 < query_window.2 - horizon
          /\ s = forecast_end
                 + (as_bvp_time (tv_datetime l) - (query_window.2 - horizon)))
  /\ (forall e, result = Raises e -> exists why, e = NotEnoughDataException why).
Proof.
  intros result. subst result. unfold check_data_availability.
  destruct (first_asc q) as [f|] eqn:Hf.
  2:{ apply first_asc_None in Hf. rewrite Hf.
      repeat split; try done; try (by intros (? & [=] & _));
        try (by intros (? & ? & [=] & _)).
      intros e [= <-]. eauto. }
  destruct (first_desc_of_first_asc _ _ Hf) as [l Hl]. rewrite Hl.
  assert (Hne : q <> []) by (intros E; rewrite E in Hf; discriminate).
  destruct (Z.ltb_spec query_window.1 (as_bvp_time (tv_datetime f))) as [H1|H1];
    [|destruct (Z.ltb_spec (as_bvp_time (tv_datetime l) + minutes 15)
                 (query_window.2 - horizon)) as [H2|H2]].
  - split; [done|]. split; [|split].
    + intros s. split; [intros [= <-]; eauto|].
      by intros (f' & [= <-] & _ & ->).
    + intros s. split; [done|]. intros (f' & l' & [= <-] & _ & ? & _). lia.
    + intros e [= <-]. eauto.
  - split; [done|]. split; [|split].
    + intros s. split; [done|]. intros (f' & [= <-] & ? & _). lia.
    + intros s. split; [intros [= <-]; eauto 10|].
      by intros (f' & l' & _ & [= <-] & _ & _ & ->).
    + intros e [= <-]. eauto.
  - split; [done|]. split; [|split].
    + intros s. split; [done|]. intros (f' & [= <-] & ? & _). lia.
    + intros s. split; [done|]. intros (f' & l' & _ & [= <-] & _ & ? & _). lia.
    + done.
Qed.

(** X6. The start that [check_data_availability] suggests is later than
    [forecast_start], and with the query window started later by as much the
    data no longer starts too late. *)
Theorem check_data_availability_suggested_start
    (forecast_start forecast_end : datetime)
    (query_window : datetime * datetime) (horizon : timedelta)
    (suggested_start : datetime) :
  check forecast_start forecast_end query_window horizon
  = Raises (NotEnoughDataException (DataStartsTooLate suggested_start)) ->
  forecast_start < suggested_start
  /\ forall s,
       check suggested_start forecast_end
         (query_window.1 + (suggested_start - forecast_start), query_window.2)
         horizon
       <> Raises (NotEnoughDataException (DataStartsTooLate s)).
Proof.
  unfold check_data_availability.
  destruct (first_asc q) as [f|]; [|done].
  destruct (first_desc q) as [l|]; [|done]. simpl.
  destruct (Z.ltb_spec query_window.1 (as_bvp_time (tv_datetime f))) as [H1|H1].
  - intros [= <-]. split; [lia|]. intros s.
    rewrite (proj2 (Z.ltb_ge _ _)) by lia. by destruct (_ <? _).
  - by destruct (_ <? _).
Qed.

(** X7. The end that [check_data_availability] suggests is more than 15
    minutes before [forecast_end], and with the query window ended earlier by
    as much the check passes. *)
Theorem check_data_availability_suggested_end
    (forecast_start forecast_end : datetime)
    (query_window : datetime * datetime) (horizon : timedelta)
    (suggested_end : datetime) :
  check forecast_start forecast_end query_window horizon
  = Raises (NotEnoughDataException (DataEndsTooEarly suggested_end)) ->
  suggested_end < forecast_end - minutes 15
  /\ check forecast_start suggested_end
       (query_window.1, query_window.2 + (suggested_end - forecast_end)) horizon
     = Returns tt.
Proof.
  unfold check_data_availability.
  destruct (first_asc q) as [f|]; [|done].
  destruct (first_desc q) as [l|]; [|done]. simpl.
  destruct (Z.ltb_spec query_window.1 (as_bvp_time (tv_datetime f))) as [H1|H1];
    [done|].
  destruct (Z.ltb_spec (as_bvp_time (tv_datetime l) + minutes 15)
              (query_window.2 - horizon)) as [H2|H2]; [|done].
  intros [= <-]. split; [lia|].
  rewrite (proj2 (Z.ltb_ge _ _)) by (unfold minutes; lia). done.
Qed.

End Availability.

Import MoreSamples.

Lemma check_data_availability_suggested_start_witness :
  hours 2 < hours 3
  /\ forall s,
       check_data_availability (fun t => t) wind_assets wind_values wind
         (hours 3) (hours 4) (- hours 1 + (hours 3 - hours 2), hours 1 + minutes 30)
         (hours 1)
       <> Raises (NotEnoughDataException (DataStartsTooLate s)).
Proof.
  apply (check_data_availability_suggested_start (fun t => t) wind_assets
           wind_values wind (hours 2) (hours 4) (- hours 1, hours 1 + minutes 30)
           (hours 1) (hours 3)).
  reflexivity.
Defined.

Lemma check_data_availability_suggested_end_witness :
  hours 3 < hours 4 - minutes 15
  /\ check_data_availability (fun t => t) wind_assets wind_values wind
       (hours 2) (hours 3) (0, hours 2 + minutes 45 + (hours 3 - hours 4)) (hours 1)
     = Returns tt.
Proof.
  apply (check_data_availability_suggested_end (fun t => t) wind_assets
           wind_values wind (hours 2) (hours 4) (0, hours 2 + minutes 45)
           (hours 1) (hours 3)).
  reflexivity.
Defined.

End DataAvailabilityProps.

(** ** More on the belief-query filters *)

Module BeliefQueriesProps.
Import Queries QueriesProps BeliefQueries.

Section MoreFilters.

Context {V : Type}.
Implicit Types (query : Query V) (r : belief V).



Lemma bool_filter_all {A} (f : A -> bool) (l : list A) :
  (forall x, x ∈ l -> f x = true) -> List.filter f l = l.
Proof.
  intros H. induction l as [|x l IH]; simpl; [done|].
  rewrite (H x) by left. f_equal. apply IH. intros y Hy. apply H. by right.
Qed.

Lemma bool_filter_comm {A} (f g : A -> bool) (l : list A) :
  List.filter f (List.filter g l) = List.filter g (List.filter f l).
Proof.
  rewrite !bool_filter_filter. apply List.filter_ext. intros x. apply andb_comm.
Qed.

(** The rows of [add_horizon_filter] without a belief time, with the end of
    the query window given or with [rolling]. *)
Lemma horizon_window_rows query (end_ : option datetime)
    (short_horizon long_horizon : option timedelta) (rolling : bool) :
  rolling = true \/ is_Some end_ ->
  exists rows,
    add_horizon_filter query end_ (short_horizon, long_horizon) rolling None
    = Returns rows
    /\ forall r, r ∈ rows <->
         r ∈ query
         /\ from_option
              (fun short => short <= b_horizon r + (if rolling then 0 else
                 default 0 end_ - (b_datetime r + b_event_resolution r)))
              True short_horizon
         /\ from_option
              (fun long => b_horizon r + (if rolling then 0 else
                 default 0 end_ - (b_datetime r + b_event_resolution r)) <= long)
              True long_horizon.
Proof.
  intros Hend. unfold add_horizon_filter.
  assert (Hcase : rolling = true \/ rolling = false /\ exists e, end_ = Some e).
  { destruct rolling; [by left|]. right. destruct Hend as [|[e ->]]; [done|eauto]. }
  destruct Hcase as [->|[-> [e ->]]];
    destruct short_horizon as [short|], long_horizon as [long|];
    try destruct (Z.eqb_spec short long) as [->|Hne]; simpl;
    eexists; (split; [reflexivity|]); intros r;
    rewrite ?elem_of_query_filter;
    unfold sql_eq, sql_ge, sql_le, sql_sub, event_end, sql_add, col_horizon,
      col_datetime, col_event_resolution, bindparam; simpl;
    rewrite ?(inj_iff Some), ?Z.eqb_eq, ?Z.leb_le; intuition lia.
Qed.

(** X14. With [rolling], and whether or not the two bounds are equal,
    [add_horizon_filter] returns exactly the rows of the query whose belief
    time is not after [belief_time] (when one is given) and whose horizon is
    at least [short_horizon] and at most [long_horizon] (for each bound
    given). *)
Theorem add_horizon_filter_rolling query (end_ : option datetime)
    (short_horizon long_horizon : option timedelta)
    (belief_time : option datetime) :
  exists rows,
    add_horizon_filter query end_ (short_horizon, long_horizon) true belief_time
    = Returns rows
    /\ forall r, r ∈ rows <->
         r ∈ query
         /\ from_option
              (fun t => b_datetime r + b_event_resolution r - b_horizon r <= t)
              True belief_time
         /\ from_option (fun short => short <= b_horizon r) True short_horizon
         /\ from_option (fun long => b_horizon r <= long) True long_horizon.
Proof.
  destruct belief_time as [t|]; [rewrite add_horizon_filter_stage|].
  - destruct (horizon_window_rows
                (List.filter
                   (fun r => b_datetime r + b_event_resolution r - b_horizon r <=? t)
                   query)
                end_ short_horizon long_horizon true ltac:(by left))
      as (rows & -> & Hrows).
    exists rows. split; [done|]. intros r. rewrite Hrows, elem_of_bool_filter.
    rewrite Z.leb_le, Z.add_0_r. simpl. tauto.
  - destruct (horizon_window_rows query end_ short_horizon long_horizon true
                ltac:(by left)) as (rows & -> & Hrows).
    exists rows. split; [done|]. intros r. rewrite Hrows, Z.add_0_r. simpl. tauto.
Qed.

(** X15. Without [rolling] and with the end of the query window given,
    [add_horizon_filter] returns exactly the rows of the query whose belief
    time, the end of the event less the horizon, is not after [belief_time]
    (when one is given), at least [short_horizon] before the end of the
    window and at most [long_horizon] before it (for each bound given). *)
Theorem add_horizon_filter_fixed query (end_ : datetime)
    (short_horizon long_horizon : option timedelta)
    (belief_time : option datetime) :
  exists rows,
    add_horizon_filter query (Some end_) (short_horizon, long_horizon) false
      belief_time
    = Returns rows
    /\ forall r, r ∈ rows <->
         let believed_at := b_datetime r + b_event_resolution r - b_horizon r in
         r ∈ query
         /\ from_option (fun t => believed_at <= t) True belief_time
         /\ from_option (fun short => believed_at <= end_ - short) True short_horizon
         /\ from_option (fun long => end_ - long <= believed_at) True long_horizon.
Proof.
  destruct belief_time as [t|]; [rewrite add_horizon_filter_stage|].
  - destruct (horizon_window_rows
                (List.filter
                   (fun r => b_datetime r + b_event_resolution r - b_horizon r <=? t)
                   query)
                (Some end_) short_horizon long_horizon false ltac:(by right))
      as (rows & -> & Hrows).
    exists rows. split; [done|]. intros r. rewrite Hrows, elem_of_bool_filter.
    rewrite Z.leb_le. simpl.
    destruct short_horizon, long_horizon; simpl; intuition lia.
  - destruct (horizon_window_rows query (Some end_) short_horizon long_horizon
                false ltac:(by right)) as (rows & -> & Hrows).
    exists rows. split; [done|]. intros r. rewrite Hrows. simpl.
    destruct short_horizon, long_horizon; simpl; intuition lia.
Qed.


Lemma elem_of_source_type_filter (sources : gmap Z data_source) query
    (t : string) (ts : list string) r :
  r ∈ add_source_type_filter sources query (Some (t :: ts)) <->
  r ∈ query
  /\ exists s, sources !! b_data_source_id r = Some s /\ ds_type s ∈ t :: ts.
Proof.
  unfold add_source_type_filter. rewrite elem_of_query_filter.
  unfold sql_in_, col_source_type.
  destruct (sources !! b_data_source_id r) as [s|]; simpl.
  - rewrite (inj_iff Some), bool_decide_eq_true. split.
    + intros [Hr Ht]. eauto.
    + by intros [Hr (s' & [= <-] & Ht)].
  - split; [by intros [_ [=]]|]. by intros [_ (s & [=] & _)].
Qed.

(** X10. With a non-empty list of source types, [add_source_type_filter]
    keeps exactly the rows whose data source is of one of these types; with
    [None] or an empty list it returns the query unchanged. *)
Theorem add_source_type_filter_spec (sources : gmap Z data_source) query
    (source_types : option (list string)) :
  let result := add_source_type_filter sources query source_types in
  (forall types, source_types = Some types -> types <> [] ->
     forall r, r ∈ result <->
       r ∈ query
       /\ exists s, sources !! b_data_source_id r = Some s /\ ds_type s ∈ types)
  /\ (source_types = None \/ source_types = Some [] -> result = query).
Proof.
  intros result. subst result. split.
  - intros [|t ts] -> Hne r; [done|]. apply elem_of_source_type_filter.
  - by intros [->| ->].
Qed.

(** X11. As the docstring of [add_user_source_filter] has it, the filter
    does not affect a query over sources that are not user sources: after
    [add_source_type_filter] with types that do not include "user", it
    changes nothing, whatever the user source ids. *)
Theorem add_user_source_filter_non_user (sources : gmap Z data_source) query
    (types : list string) (user_source_ids : option (Z + list Z)) :
  types <> [] -> "user" ∉ types ->
  add_user_source_filter sources
    (add_source_type_filter sources query (Some types)) user_source_ids
  = add_source_type_filter sources query (Some types).
Proof.
  intros Hne Huser. destruct types as [|t ts]; [done|].
  set (typed := add_source_type_filter _ _ _).
  assert (Hkeep : forall i ids r, r ∈ typed ->
            is_true (sql_notin col_data_source_id
              (List.filter
                 (fun s => bool_decide (ds_type s.2 = "user")
                           && negb (bool_decide (s.1 ∈ i :: ids)))
                 (map_to_list sources)).*1 r) = true).
  { intros i ids r (_ & s & Hs & Ht)%elem_of_source_type_filter.
    unfold sql_notin, col_data_source_id. simpl.
    apply negb_true_iff, bool_decide_eq_false.
    intros (s' & Hs' & Hu & _)%elem_of_ignorable. congruence. }
  unfold add_user_source_filter.
  destruct user_source_ids as [[i|[|i ids]]|]; try done;
    apply bool_filter_all; intros r Hr; by apply Hkeep.
Qed.

(** X12. [add_user_source_filter] and [add_source_type_filter] can be applied
    in either order. *)
Theorem source_filters_commute (sources : gmap Z data_source) query
    (user_source_ids : option (Z + list Z)) (source_types : option (list string)) :
  add_user_source_filter sources
    (add_source_type_filter sources query source_types) user_source_ids
  = add_source_type_filter sources
      (add_user_source_filter sources query user_source_ids) source_types.
Proof.
  unfold add_user_source_filter, add_source_type_filter, query_filter.
  destruct user_source_ids as [[i|[|i ids]]|], source_types as [[|t ts]|];
    try done; apply bool_filter_comm.
Qed.

(** X13. An empty list of user source ids is no filter at all, and not the
    filter of a list that names no user source: with the empty list every
    row is kept, while with ids none of which is a user source no row of a
    user source is kept. *)
Theorem add_user_source_filter_empty_or_unknown
    (sources : gmap Z data_source) query (ids : list Z) :
  add_user_source_filter sources query (Some (inr [])) = query
  /\ (ids <> [] ->
      (forall i s, i ∈ ids -> sources !! i = Some s -> ds_type s <> "user") ->
      forall r, r ∈ add_user_source_filter sources query (Some (inr ids)) <->
        r ∈ query
        /\ forall s, sources !! b_data_source_id r = Some s -> ds_type s <> "user").
Proof.
  split; [done|]. intros Hne Hunknown r.
  destruct ids as [|i ids]; [done|].
  unfold add_user_source_filter. rewrite user_source_filter_nonempty.
  split; intros [Hr H]; (split; [done|]); intros s Hs.
  - intros Hu. by apply (Hunknown _ s (H s Hs Hu)).
  - intros Hu. by destruct (H s Hs).
Qed.

(** The rows of [create_beliefs_query] without a window. *)
Lemma elem_of_all_beliefs (table : list (timed_value V))
    (sources : gmap Z data_source) (assets : gmap Z asset) (asset_name : string) r :
  r ∈ create_beliefs_query table sources assets asset_name None None <->
  exists row a, row ∈ table
    /\ is_Some (sources !! tv_data_source_id row)
    /\ assets !! tv_asset_id row = Some a
    /\ a_name a = asset_name
    /\ r = belief_of row a.
Proof.
  unfold create_beliefs_query. rewrite list_elem_of_omap. split.
  - intros (row & Hrow & Hr).
    destruct (sources !! tv_data_source_id row) as [s|] eqn:Hs; [|done].
    destruct (assets !! tv_asset_id row) as [a|] eqn:Ha; [|done]. simpl in Hr.
    case_bool_decide; [|done]. injection Hr as <-. exists row, a. eauto 10.
  - intros (row & a & Hrow & [s Hs] & Ha & Hname & ->). exists row.
    split; [done|]. rewrite Hs, Ha. simpl. by rewrite bool_decide_eq_true_2.
Qed.

Lemma create_beliefs_query_window (table : list (timed_value V))
    (sources : gmap Z data_source) (assets : gmap Z asset) (asset_name : string)
    (start end_ : option datetime) :
  create_beliefs_query table sources assets asset_name start end_
  = List.filter
      (fun r => from_option (fun e => b_datetime r <? e) true end_)
      (List.filter
         (fun r => from_option
                     (fun s => s - b_event_resolution r <? b_datetime r) true start)
         (create_beliefs_query table sources assets asset_name None None)).
Proof.
  unfold create_beliefs_query, query_filter.
  destruct start as [s|], end_ as [e|]; simpl; rewrite ?List.filter_true; done.
Qed.

(** X8. [create_beliefs_query] returns exactly the beliefs about the named
    asset, from rows whose data source and asset exist, whose event overlaps
    the window: it ends after [start] and starts before [end], for each of
    the two that is given. *)
Theorem create_beliefs_query_overlap (table : list (timed_value V))
    (sources : gmap Z data_source) (assets : gmap Z asset) (asset_name : string)
    (start end_ : option datetime) r :
  r ∈ create_beliefs_query table sources assets asset_name start end_ <->
  (exists row a, row ∈ table
     /\ is_Some (sources !! tv_data_source_id row)
     /\ assets !! tv_asset_id row = Some a
     /\ a_name a = asset_name
     /\ r = belief_of row a)
  /\ from_option (fun s => s < b_datetime r + b_event_resolution r) True start
  /\ from_option (fun e => b_datetime r < e) True end_.
Proof.
  rewrite create_beliefs_query_window, !elem_of_bool_filter, elem_of_all_beliefs.
  destruct start as [s|], end_ as [e|]; simpl; rewrite ?Z.ltb_lt; intuition lia.
Qed.


End MoreFilters.

Import Samples MoreSamples.

Lemma add_user_source_filter_non_user_witness :
  add_user_source_filter two_users_and_a_script
    (add_source_type_filter two_users_and_a_script
       [wind_at 0 0 1; wind_at 0 0 2; wind_at 0 0 3] (Some ["script"]))
    (Some (inl 1))
  = [wind_at 0 0 3].
Proof.
  rewrite (add_user_source_filter_non_user two_users_and_a_script
             [wind_at 0 0 1; wind_at 0 0 2; wind_at 0 0 3] ["script"]
             (Some (inl 1))).
  - vm_compute. reflexivity.
  - discriminate.
  - intros H. apply list_elem_of_singleton in H. discriminate.
Defined.


Section ResultsProps.

Context {cell : Type}.
Implicit Types (row : list (string * cell)) (d : gmap string cell).

(** The dict of a row: its columns put in, one after the other. *)
Local Abbreviation row_dict :=
  (foldl (fun d '(key, value) => <[key := value]> d) (∅ : gmap string cell)).

Lemma read_sqlalchemy_results_fmap (data : list (list (string * cell))) :
  read_sqlalchemy_results data = row_dict <$> data.
Proof.
  assert (H : forall acc : list (gmap string cell),
    foldl (fun results row => results ++ [row_dict row]) acc data
    = acc ++ (row_dict <$> data)).
  { induction data as [|row data IH]; intros acc; simpl.
    - by rewrite app_nil_r.
    - rewrite IH. by rewrite <- app_assoc. }
  unfold read_sqlalchemy_results. destruct data as [|row data]; [done|].
  apply (H []).
Qed.

Lemma foldl_insert_lookup_notin row d (key : string) :
  key ∉ row.*1 ->
  foldl (fun d '(key, value) => <[key := value]> d) d row !! key = d !! key.
Proof.
  revert d. induction row as [|[k v] row IH]; intros d Hk; simpl; [done|].
  apply not_elem_of_cons in Hk as [Hne Hk]. rewrite IH by done.
  by rewrite lookup_insert_ne.
Qed.

Lemma foldl_insert_is_Some row d (key : string) :
  is_Some (foldl (fun d '(key, value) => <[key := value]> d) d row !! key)
  <-> is_Some (d !! key) \/ key ∈ row.*1.
Proof.
  revert d. induction row as [|[k v] row IH]; intros d; simpl.
  - split; [by left|]. intros [?|?%elem_of_nil]; done.
  - rewrite IH, elem_of_cons. destruct (decide (k = key)) as [->|Hne].
    + rewrite lookup_insert_eq. split; [by right; left|eauto].
    + rewrite lookup_insert_ne by done. intuition congruence.
Qed.

(** X17. [read_sqlalchemy_results] returns one dict per row, in the order of
    the rows; the dict of a row has exactly the names of its columns as keys,
    and under each name the value of the last column of that name. *)
Theorem read_sqlalchemy_results_spec (data : list (list (string * cell))) :
  length (read_sqlalchemy_results data) = length data
  /\ forall (i : nat) row, data !! i = Some row ->
       exists d, read_sqlalchemy_results data !! i = Some d
         /\ (forall key, is_Some (d !! key) <-> key ∈ row.*1)
         /\ (forall before after key value,
               row = before ++ (key, value) :: after -> key ∉ after.*1 ->
               d !! key = Some value).
Proof.
  rewrite read_sqlalchemy_results_fmap. split; [apply length_fmap|].
  intros i row Hi. exists (row_dict row). split; [|split].
  - by rewrite list_lookup_fmap, Hi.
  - intros key. rewrite foldl_insert_is_Some, lookup_empty.
    split; [intros [[? [=]]|?]; done|by right].
  - intros before after key value -> Hafter.
    rewrite foldl_app. simpl. rewrite foldl_insert_lookup_notin by done.
    apply lookup_insert_eq.
Qed.

End ResultsProps.

End BeliefQueriesProps.

(** ** More on forecasting jobs and their runs *)

Module ForecastingMoreProps.
Import Forecasting ForecastingMore ForecastingProps.

(** X18. [num_forecasts] fails, on a division by zero, exactly when the
    resolution is zero. For a positive resolution it returns the number of
    whole resolutions that fit between [start] and [end]: that many fit, one
    more does not; and it is not negative when [end] is not before
    [start]. *)
Theorem num_forecasts_bounds (start end_ : datetime) (resolution : timedelta) :
  (num_forecasts start end_ resolution = None <-> resolution = 0)
  /\ (0 < resolution ->
      exists n, num_forecasts start end_ resolution = Some n
        /\ n * resolution <= end_ - start < (n + 1) * resolution
        /\ (start <= end_ -> 0 <= n)).
Proof.
  unfold num_forecasts, Lags.floordiv. split.
  - destruct (Z.eqb_spec resolution 0); [done|]. split; [done|tauto].
  - intros Hr. rewrite (proj2 (Z.eqb_neq resolution 0)) by lia.
    eexists. split; [done|].
    pose proof (Z.mul_div_le (end_ - start) resolution Hr).
    pose proof (Z.mul_succ_div_gt (end_ - start) resolution Hr).
    split; [lia|]. intros Hle. apply Z.div_pos; lia.
Qed.

Section JobsMoreProps.

Context {params : Type}.
Variable forecast_horizons_for : timedelta -> list timedelta.

(** X19. Every job of [create_forecasting_jobs] covers a period as long as
    the rolling window, so that [num_forecasts] counts as many forecasts for
    the job as for the window, at any resolution. *)
Theorem create_forecasting_jobs_num_forecasts
    (timed_value_type : string) (asset_id : Z) (start_of_roll end_of_roll : datetime)
    (resolution : option timedelta) (horizons : option (list timedelta))
    (custom_model_params : option params) (enqueue : bool)
    (queue queue' jobs : list (Job params)) :
  create_forecasting_jobs forecast_horizons_for timed_value_type asset_id
    start_of_roll end_of_roll resolution horizons custom_model_params enqueue queue
  = (Returns jobs, queue') ->
  forall job, job ∈ jobs ->
    job_end job - job_start job = end_of_roll - start_of_roll
    /\ forall r, num_forecasts (job_start job) (job_end job) r
                 = num_forecasts start_of_roll end_of_roll r.
Proof.
  unfold create_forecasting_jobs.
  destruct horizons as [hs|]; [|destruct resolution as [res|]; [|done]];
    rewrite create_jobs_map; simpl; intros [= <- _] job Hjob;
    change (map ?f ?l) with (f <$> l) in Hjob;
    apply list_elem_of_fmap in Hjob as (h & -> & _); simpl;
    (split; [lia|]); intros r; unfold num_forecasts; f_equal; lia.
Qed.

End JobsMoreProps.

Lemma create_forecasting_jobs_num_forecasts_witness :
  num_forecasts (hours 15 + hours 6) (hours 17 + hours 6) (minutes 15)
  = num_forecasts (hours 15) (hours 17) (minutes 15).
Proof.
  apply (create_forecasting_jobs_num_forecasts (params := unit) (fun _ => [])
           "Power" 7 (hours 15) (hours 17) None (Some [hours 1; hours 6]) None
           true [] _ _ eq_refl
           {| job_asset_id := 7; job_timed_value_type := "Power";
              job_horizon := hours 6; job_start := hours 15 + hours 6;
              job_end := hours 17 + hours 6; job_custom_model_params := None |}).
  right. left.
Defined.

Section LookupProps.

Context {V : Type}.

Lemma one_or_none_cases {A} (rows : list A) :
  match rows with
  | [] => one_or_none rows = Returns None
  | [r] => one_or_none rows = Returns (Some r)
  | _ :: _ :: _ => one_or_none rows = Raises MultipleResultsFound
  end.
Proof. by destruct rows as [|? [|? ?]]. Qed.



Lemma value_class_of_cases (timed_value_type : string) :
  match value_class_of timed_value_type with
  | Some Power => timed_value_type = "Power"
  | Some Price => timed_value_type = "Price"
  | Some Weather => timed_value_type = "Weather"
  | None => timed_value_type ∉ ["Power"; "Price"; "Weather"]
  end.
Proof.
  unfold value_class_of. repeat case_bool_decide; try done.
  intros Hin. repeat (apply elem_of_cons in Hin as [Hin|Hin]; [done|]).
  by apply elem_of_nil in Hin.
Qed.

(** X21. [get_asset] looks in the table of the value type only: Power in
    the assets, Price in the markets, Weather in the weather sensors. What it
    returns is a row of that table with the id asked for; it raises for any
    other value type, and when the table has no row with that id. *)
Theorem get_asset_cases (assets markets weather_sensors : list GenericAsset)
    (asset_id : Z) (timed_value_type : string) :
  let result := get_asset assets markets weather_sensors asset_id timed_value_type in
  (forall a, result = Returns a ->
     ga_id a = asset_id
     /\ (timed_value_type = "Power" /\ a ∈ assets
         \/ timed_value_type = "Price" /\ a ∈ markets
         \/ timed_value_type = "Weather" /\ a ∈ weather_sensors))
  /\ (timed_value_type ∉ ["Power"; "Price"; "Weather"] ->
      result = Raises (Exception
        ("Cannot get asset for asset_type '" +:+ timed_value_type +:+ "'")))
  /\ (forall table,
        timed_value_type = "Power" /\ table = assets
        \/ timed_value_type = "Price" /\ table = markets
        \/ timed_value_type = "Weather" /\ table = weather_sensors ->
        (forall a, a ∈ table -> ga_id a <> asset_id) ->
        result = Raises (Exception
          ("Cannot find asset for value type " +:+ timed_value_type
           +:+ " with id " +:+ pretty asset_id))).
Proof.
  intros result. subst result. unfold get_asset.
  assert (Hby : forall table a, In a (by_id asset_id table) ->
            ga_id a = asset_id /\ a ∈ table).
  { intros table a [Hin Hid]%filter_In. apply bool_decide_eq_true in Hid.
    by apply list_elem_of_In in Hin. }
  assert (Hnone : forall table, (forall a, a ∈ table -> ga_id a <> asset_id) ->
            by_id asset_id table = []).
  { intros table H. destruct (by_id asset_id table) as [|a rest] eqn:E; [done|].
    destruct (Hby table a) as [Hid Hin]; [rewrite E; by left|].
    by destruct (H a Hin). }
  pose proof (value_class_of_cases timed_value_type) as Hc.
  split; [|split].
  - intros a. destruct (value_class_of timed_value_type) as [[]|]; [..|done];
      unfold mbind, outcome_bind;
      match goal with |- context [one_or_none ?l] =>
        pose proof (one_or_none_cases l) as Hone;
        destruct l as [|r [|r' rest]] eqn:El; rewrite Hone; try done;
        intros [= <-]; destruct (Hby _ r ltac:(rewrite El; by left)); eauto 10
      end.
  - intros Hnot. destruct (value_class_of timed_value_type) as [[]|]; [..|done];
      subst timed_value_type; destruct Hnot; repeat constructor.
  - intros table Htable Hno. apply Hnone in Hno.
    destruct Htable as [[-> ->]|[[-> ->]|[-> ->]]]; simpl;
      unfold mbind, outcome_bind; by rewrite Hno.
Qed.

End LookupProps.

Section RunProps.

Context {V params ModelSpecs ModelState : Type}.
Variable current_job : option string.
Variable data_source_label : string.
Variable data_sources : list DataSource.
Variable assets markets weather_sensors : list GenericAsset.
Variable hasattr_market_type : GenericAsset -> bool.
Variable supported_horizons : list timedelta.
Variable as_bvp_time : datetime -> datetime.
Variable bvp_now : datetime.
Variable latest_generic_model :
  GenericAsset -> datetime -> datetime -> timedelta -> option timedelta ->
  option params -> outcome (ModelSpecs * string).
Variable set_creation_time : ModelSpecs -> datetime -> ModelSpecs.
Variable make_rolling_forecasts :
  datetime -> datetime -> ModelSpecs -> outcome (list (datetime * V) * ModelState).
Variable save_to_database : list (TimedValue V) -> bool -> outcome unit.
Variable session_flush : outcome unit.
Variable config : gmap string string.

Local Abbreviation preamble :=
  (job_preamble (V := V) current_job data_source_label data_sources
     assets markets weather_sensors).
Local Abbreviation build :=
  (build_forecasts hasattr_market_type as_bvp_time bvp_now latest_generic_model
     set_creation_time make_rolling_forecasts).
Local Abbreviation save := (save_forecasts save_to_database session_flush config).
Local Abbreviation run :=
  (make_forecasts current_job data_source_label data_sources assets markets
     weather_sensors hasattr_market_type supported_horizons as_bvp_time bvp_now
     latest_generic_model set_creation_time make_rolling_forecasts
     save_to_database session_flush config).

Ltac unfold_M :=
  unfold mbind, M_bind, mret, M_ret, lift, call, emit, raise in *.




(** Events that neither save nor roll back. *)
Local Abbreviation quiet :=
  (fun ev : event V => is_save ev = false /\ ev <> SessionRollback).






(** X24. When the run of [make_forecasts] gets to saving its rows and
    neither the saving nor the flush raises [IntegrityError], the run ends
    as they end, returning or raising what they raised: the rows were saved
    once, without overwriting, and the session was not rolled back. *)
Theorem make_forecasts_no_integrity_error
    (asset_id : Z) (timed_value_type : string) (horizon : timedelta)
    (start end_ : datetime) (custom_model_params : option params)
    rq_job data_source asset (tr1 tr2 : list (event V)) (rows : list (TimedValue V)) :
  preamble asset_id timed_value_type [] = (Returns (rq_job, data_source, asset), tr1) ->
  horizon ∈ supported_horizons ->
  build data_source asset asset_id timed_value_type horizon start end_
    custom_model_params tr1 = (Returns rows, tr2) ->
  save_to_database rows false <> Raises IntegrityError ->
  session_flush <> Raises IntegrityError ->
  run asset_id timed_value_type horizon start end_ custom_model_params []
  = match save_to_database rows false with
    | Returns _ => (session_flush, tr2 ++ [SaveToDatabase rows false; SessionFlush])
    | Raises e => (Raises e, tr2 ++ [SaveToDatabase rows false])
    end.
Proof.
  intros Hpre Hsup Hbuild Hsave Hflush.
  unfold make_forecasts. unfold mbind at 1. unfold M_bind at 1.
  rewrite Hpre. rewrite bool_decide_eq_true_2 by done. cbn [negb].
  unfold mbind at 1. unfold M_bind at 1. rewrite Hbuild.
  unfold save_forecasts, try_except_IntegrityError. unfold_M.
  destruct (save_to_database rows false) as [[]|[]]; simpl; try done;
    destruct session_flush as [[]|[]]; simpl; rewrite <- ?app_assoc; done.
Qed.

(** X25. A run that finds no data source with the label of the forecaster
    adds one to the session before it looks for the asset: when the asset
    lookup then raises, the run raises the same with the new data source
    already added. *)
Theorem make_forecasts_adds_source_first
    (asset_id : Z) (timed_value_type : string) (horizon : timedelta)
    (start end_ : datetime) (custom_model_params : option params) (e : exn) :
  (forall s, s ∈ data_sources -> ds_label s <> data_source_label) ->
  get_asset assets markets weather_sensors asset_id timed_value_type = Raises e ->
  run asset_id timed_value_type horizon start end_ custom_model_params []
  = (Raises e,
     [SessionAdd {| ds_id := None; ds_label := data_source_label;
                    ds_type := "script" |}]).
Proof.
  intros Hnone Hasset.
  assert (Hf : List.filter (fun s => bool_decide (ds_label s = data_source_label))
                 data_sources = []).
  { destruct (List.filter _ data_sources) as [|s rest] eqn:E; [done|].
    assert (Hin : In s (List.filter
                          (fun s => bool_decide (ds_label s = data_source_label))
                          data_sources)) by (rewrite E; by left).
    apply filter_In in Hin as [Hin Hl]. apply bool_decide_eq_true in Hl.
    apply list_elem_of_In in Hin. by destruct (Hnone s Hin). }
  unfold make_forecasts, job_preamble, get_data_source. unfold_M.
  rewrite Hf, Hasset. done.
Qed.

End RunProps.

Import Samples.


Lemma make_forecasts_no_integrity_error_witness :
  run_job (fun _ _ => Returns tt) ∅ "Power" (hours 6)
  = (Returns tt,
     [SessionAdd seita; Stdout "Running Forecasting Job"; LatestGenericModel;
      MakeRollingForecasts]
     ++ [SaveToDatabase power_forecasts false; SessionFlush]).
Proof.
  apply (make_forecasts_no_integrity_error (params := unit) (ModelSpecs := unit)
           (ModelState := unit)
           (Some "job-1") "forecast by Seita (v1)" [] [turbine] [epex] []
           (fun a => bool_decide (ga_name a = "epex_da"))
           [hours 1; hours 6; hours 24; hours 48]
           (fun t => t) (hours 9)
           (fun _ _ _ _ _ _ => Returns (tt, "linear-OLS"))
           (fun specs _ => specs)
           (fun start _ _ => Returns ([(start, 3); (start + minutes 15, 4)], tt))
           (fun _ _ => Returns tt) (Returns tt) ∅
           1 "Power" (hours 6) (hours 10) (hours 10 + minutes 30) None
           (Some "job-1") seita turbine
           [SessionAdd seita; Stdout "Running Forecasting Job"]
           [SessionAdd seita; Stdout "Running Forecasting Job";
            LatestGenericModel; MakeRollingForecasts]
           power_forecasts);
    [vm_compute; reflexivity | right; left | vm_compute; reflexivity
    | discriminate | discriminate].
Defined.

Lemma make_forecasts_adds_source_first_witness :
  run_job rows_exist ∅ "Solar" (hours 6)
  = (Raises (Exception "Cannot get asset for asset_type 'Solar'"),
     [SessionAdd seita]).
Proof.
  apply (make_forecasts_adds_source_first (params := unit) (ModelSpecs := unit)
           (ModelState := unit)
           (Some "job-1") "forecast by Seita (v1)" [] [turbine] [epex] []
           (fun a => bool_decide (ga_name a = "epex_da"))
           [hours 1; hours 6; hours 24; hours 48]
           (fun t => t) (hours 9)
           (fun _ _ _ _ _ _ => Returns (tt, "linear-OLS"))
           (fun specs _ => specs)
           (fun start _ _ => Returns ([(start, 3); (start + minutes 15, 4)], tt))
           rows_exist (Returns tt) ∅
           1 "Solar" (hours 6) (hours 10) (hours 10 + minutes 30) None).
  - intros s Hs. by apply elem_of_nil in Hs.
  - reflexivity.
Defined.

End ForecastingMoreProps.

(** ** The test message for prognoses *)

Module TestMessagesProps.
Import TestMessages.

Lemma rolling_horizon_irrelevant
    (no_horizon invalid_horizon no_data no_resolution
     single_connection timezone_alternative : bool) :
  message_for_get_prognosis no_horizon invalid_horizon true no_data
    no_resolution single_connection timezone_alternative
  = message_for_get_prognosis no_horizon invalid_horizon false no_data
      no_resolution single_connection timezone_alternative.
Proof.
  unfold message_for_get_prognosis.
  destruct no_horizon, invalid_horizon; reflexivity.
Qed.

(** X26. [message_for_get_prognosis] always returns a message, with its
    type, duration and unit. The message has no horizon exactly when
    [no_horizon] is set, and otherwise the invalid horizon "T6H" exactly when
    [invalid_horizon] is set; [rolling_horizon] changes nothing. Its start is
    a tuple of one string, not a string, when [no_data] or
    [timezone_alternative] is set (the latter wins), is missing when only
    [no_horizon] is set, and is the default otherwise. It has no resolution
    exactly when [no_resolution] is set, and it has either the first
    connection as "connection" or the three "connections", by
    [single_connection]. *)
Theorem message_for_get_prognosis_spec
    (no_horizon invalid_horizon rolling_horizon no_data no_resolution
     single_connection timezone_alternative : bool) :
  let message :=
    message_for_get_prognosis no_horizon invalid_horizon rolling_horizon no_data
      no_resolution single_connection timezone_alternative in
  is_Some message
  /\ (forall rolling_horizon',
        message_for_get_prognosis no_horizon invalid_horizon rolling_horizon'
          no_data no_resolution single_connection timezone_alternative
        = message)
  /\ message_field "type" message = Some (Text "GetPrognosisRequest")
  /\ message_field "duration" message = Some (Text "PT1H30M")
  /\ message_field "unit" message = Some (Text "MW")
  /\ message_field "horizon" message
     = (if no_horizon then None
        else if invalid_horizon then Some (Text "T6H")
        else Some (Text "R/PT6H"))
  /\ message_field "start" message
     = (if timezone_alternative
        then Some (TextTuple ["2015-01-01T00:00:00+00:00"])
        else if no_data then Some (TextTuple ["2010-01-01T00:00:00Z"])
        else if no_horizon then None
        else Some (Text "2015-01-01T00:00:00Z"))
  /\ message_field "resolution" message
     = (if no_resolution then None else Some (Text "PT15M"))
  /\ message_field "connection" message
     = (if single_connection then Some (Text "CS 1") else None)
  /\ message_field "connections" message
     = (if single_connection then None
        else Some (TextList ["CS 1"; "CS 2"; "CS 3"])).
Proof.
  intros message.
  assert (Hm : message = message_for_get_prognosis no_horizon invalid_horizon
                 false no_data no_resolution single_connection
                 timezone_alternative).
  { subst message. destruct rolling_horizon; [|done].
    apply rolling_horizon_irrelevant. }
  split; [|split].
  - rewrite Hm.
    destruct no_horizon, invalid_horizon, no_data, no_resolution,
      single_connection, timezone_alternative; eexists; reflexivity.
  - intros r'. rewrite Hm. destruct r'; [|done].
    apply rolling_horizon_irrelevant.
  - rewrite Hm. clear Hm message.
    destruct no_horizon, invalid_horizon, no_data, no_resolution,
      single_connection, timezone_alternative;
      repeat split; vm_compute; reflexivity.
Qed.

End TestMessagesProps.
